(** * proto-segmentation: the Lightning data module and training module

    A shallow embedding of
      - [segmentation/data_module.py] ([PatchClassificationDataModule]) and
      - [sliding_window/module.py]    ([SlidingWindowModule] and its helpers),
    followed by the properties of the training orchestration that the
    specification states about them.

    Conventions of the embedding.
      - Python [int] is [Z]; Python [float] and the [.item()] of a scalar
        tensor are exact rationals [Q] (rounding is not modelled).
      - A Python dict keyed by strings is a [gmap string _]; the inner
        metrics dict, whose eight keys are fixed by [reset_metrics], is a
        record with one field per key.
      - A raised exception is the [Raise] outcome of [result].
      - Calls into the framework (torch, Lightning, [train_and_test],
        [save], [settings.log]) are recorded, in program order, in the
        [calls] field of the state. *)

From Stdlib Require Import ZArith QArith Lia Lqa Ascii String.
From stdpp Require Import base option gmap strings list.

Local Open Scope string_scope.
Local Open Scope Z_scope.

(** ** Python outcomes *)

Inductive exn :=
| ValueError (msg : string)
| TypeError (msg : string)
| KeyError (key : string)
| AttributeError (msg : string)
| ZeroDivisionError.

Inductive result (A : Type) :=
| Ok (a : A)
| Raise (e : exn).
Arguments Ok {A} a.
Arguments Raise {A} e.

#[global] Instance result_ret : MRet result := fun _ a => Ok a.
#[global] Instance result_bind : MBind result := fun _ _ f r =>
  match r with
  | Ok a => f a
  | Raise e => Raise e
  end.
#[global] Instance result_fmap : FMap result := fun _ _ f r =>
  match r with
  | Ok a => Ok (f a)
  | Raise e => Raise e
  end.

(** Values that travel through [**kwargs]. *)
Inductive pyval :=
| PyNone
| PyBool (b : bool)
| PyInt (n : Z)
| PyStr (s : string).

(** ** [os.path.join] on POSIX paths *)

Fixpoint endswith_sep (s : string) : bool :=
  match s with
  | EmptyString => false
  | String c EmptyString => bool_decide (c = "/"%char)
  | String _ rest => endswith_sep rest
  end.

Definition startswith_sep (s : string) : bool :=
  match s with
  | String c _ => bool_decide (c = "/"%char)
  | EmptyString => false
  end.

(** [posixpath.join] of two components. *)
Definition os_path_join (a b : string) : string :=
  if startswith_sep b then b
  else if bool_decide (a = "") || endswith_sep a then a +:+ b
  else a +:+ "/" +:+ b.

(** ** segmentation/data_module.py *)
Module Segmentation.

(** The kinds of file [os.stat] reports; [OtherFile] stands for the
    devices, pipes and sockets. *)
Inductive file_kind := RegularFile | Directory | OtherFile.

#[global] Instance file_kind_eq_dec : EqDecision file_kind.
Proof. solve_decision. Defined.

(** What is found at a path when a final symbolic link is not followed
    ([os.lstat]): a file of some kind, or a symbolic link together with
    the path it leads to. *)
Inductive entry :=
| File (kind : file_kind)
| Symlink (target : string).

(** The file system as the process sees it.  [lstat p] is the entry the
    kernel finds for the path string [p], however the path is spelled, and
    [None] when it finds none; [max_links] is the number of symbolic links
    it follows before it gives up. *)
Record file_system := {
  lstat : string → option entry;
  max_links : nat
}.

Fixpoint follow (lstat_ : string → option entry) (fuel : nat) (p : string)
    : option file_kind :=
  match lstat_ p with
  | None => None
  | Some (File kind) => Some kind
  | Some (Symlink target) =>
      match fuel with
      | O => None
      | S fuel => follow lstat_ fuel target
      end
  end.

(** [os.stat], which follows symbolic links: the kind of the file the path
    leads to, [None] where it raises [OSError] (nothing at the path, a
    link that leads nowhere, too many links). *)
Definition os_stat (fs : file_system) (p : string) : option file_kind :=
  follow (lstat fs) (max_links fs) p.

(** [os.path.exists]: [os.stat] succeeds. *)
Definition os_path_exists (fs : file_system) (p : string) : bool :=
  bool_decide (is_Some (os_stat fs p)).

(** [os.path.isdir]: [os.stat] succeeds and reports a directory. *)
Definition os_path_isdir (fs : file_system) (p : string) : bool :=
  bool_decide (os_stat fs p = Some Directory).

(** A file system with a single entry. *)
Definition single_entry_fs (path : string) (e : entry) : file_system :=
  {| lstat := fun p => if bool_decide (p = path) then Some e else None;
     max_links := 40 |}.

(** The keyword arguments handed to [PatchClassificationDataset]; an
    argument the call site leaves out is [None]. *)
Record PatchClassificationDataset := {
  split_key : string;
  is_eval : bool;
  ds_model_image_size : Z;
  push_prototypes : option bool;
  length_multiplier : option Z
}.

(** The keyword arguments a [DataLoader] is constructed with. *)
Record DataLoader := {
  dataset : PatchClassificationDataset;
  shuffle : bool;
  num_workers : Z;
  dl_kwargs : gmap string pyval
}.

Record PatchClassificationDataModule := {
  dataloader_n_jobs : Z;
  model_image_size : Z;
  push_length_multiplier : Z
}.

(** [cpu_count] is the value of [multiprocessing.cpu_count()]. *)
Definition __init__ (cpu_count : Z)
    (model_image_size dataloader_n_jobs push_length_multiplier : Z)
    : PatchClassificationDataModule :=
  {| dataloader_n_jobs :=
       if bool_decide (dataloader_n_jobs ≠ -1) then dataloader_n_jobs
       else cpu_count;
     model_image_size := model_image_size;
     push_length_multiplier := push_length_multiplier |}.

(** [data_path] is the constant of [settings]; [fs] is the file system
    the process sees. *)
Definition prepare_data (data_path : string) (fs : file_system)
    (self : PatchClassificationDataModule) : result unit :=
  if negb (os_path_exists fs (os_path_join data_path "annotations"))
  then Raise (ValueError
         "Please download dataset and preprocess it using 'preprocess.py' script")
  else Ok ().

(** A call [f(k=v, ..., **kwargs)] raises [TypeError] when [kwargs]
    repeats a keyword that is written out at the call site. *)
Definition explicit_keywords : list string :=
  ["dataset"; "shuffle"; "num_workers"].

Definition repeated_keyword (kwargs : gmap string pyval) : option string :=
  list_find (fun k => is_Some (kwargs !! k)) explicit_keywords
    ≫= fun p => Some p.2.

Definition get_data_loader (self : PatchClassificationDataModule)
    (ds : PatchClassificationDataset) (kwargs : gmap string pyval)
    : result DataLoader :=
  match repeated_keyword kwargs with
  | Some k => Raise (TypeError k)
  | None =>
      Ok {| dataset := ds;
            shuffle := negb (is_eval ds);
            num_workers := dataloader_n_jobs self;
            dl_kwargs := kwargs |}
  end.

Definition train_dataloader (self : PatchClassificationDataModule)
    (kwargs : gmap string pyval) : result DataLoader :=
  let train_split :=
    {| split_key := "train";
       is_eval := false;
       ds_model_image_size := model_image_size self;
       push_prototypes := None;
       length_multiplier := None |} in
  get_data_loader self train_split kwargs.

Definition val_dataloader (self : PatchClassificationDataModule)
    (kwargs : gmap string pyval) : result DataLoader :=
  let val_split :=
    {| split_key := "val";
       is_eval := true;
       ds_model_image_size := model_image_size self;
       push_prototypes := None;
       length_multiplier := None |} in
  get_data_loader self val_split kwargs.

Definition test_dataloader (self : PatchClassificationDataModule)
    (kwargs : gmap string pyval) : result DataLoader :=
  let test_split :=
    {| split_key := "val";
       is_eval := true;
       ds_model_image_size := model_image_size self;
       push_prototypes := None;
       length_multiplier := None |} in
  get_data_loader self test_split kwargs.

Definition train_push_dataloader (self : PatchClassificationDataModule)
    (kwargs : gmap string pyval) : result DataLoader :=
  let train_split :=
    {| split_key := "train";
       is_eval := true;
       ds_model_image_size := model_image_size self;
       push_prototypes := Some true;
       length_multiplier := Some (push_length_multiplier self) |} in
  get_data_loader self train_split kwargs.

(** The four public constructors of dataloaders. *)
Inductive loader_method :=
| TrainDataloader | ValDataloader | TestDataloader | TrainPushDataloader.

Definition call_loader (meth : loader_method)
    : PatchClassificationDataModule → gmap string pyval → result DataLoader :=
  match meth with
  | TrainDataloader => train_dataloader
  | ValDataloader => val_dataloader
  | TestDataloader => test_dataloader
  | TrainPushDataloader => train_push_dataloader
  end.

End Segmentation.

(** ** sliding_window/module.py *)
Module SlidingWindow.

(** *** Optimizers, as far as the module reads and writes them *)

(** One entry of [optimizer.param_groups]: the parameter collection of the
    network it covers, its ['lr'], and the ['weight_decay'] when the
    specification dict gives one. *)
Record param_group := {
  params : string;
  lr : Q;
  weight_decay : option Q
}.

(** The part of an optimizer object the module itself reads and writes:
    its param groups and [defaults['lr']].  What [zero_grad] and [step] do
    to the parameters and to the optimizer's moment estimates is torch's,
    and shows in the state as the recorded call. *)
Record optimizer := {
  param_groups : list param_group;
  defaults_lr : Q
}.

(** [torch.optim.Adam(specs)]: the module passes no [lr] of its own, so
    [defaults['lr']] is the constructor's default, [adam_default_lr]. *)
Definition Adam (adam_default_lr : Q) (specs : list param_group) : optimizer :=
  {| param_groups := specs; defaults_lr := adam_default_lr |}.

Definition get_lr (o : optimizer) : option Q :=
  match param_groups o with
  | pg :: _ => Some (lr pg)
  | [] => None
  end.

(** Python's [min(a, b)]: the first of the smallest arguments. *)
Definition py_min (a b : Q) : Q :=
  if Qle_bool a b then a else b.

Definition set_lr (v : Q) (pg : param_group) : param_group :=
  {| params := params pg; lr := v; weight_decay := weight_decay pg |}.

Definition lr_scale (current_step warmup_batches : Z) : Q :=
  py_min 1 (inject_Z (current_step + 1) / inject_Z warmup_batches)%Q.

Definition update_lr_warmup (o : optimizer) (current_step warmup_batches : Z)
    : optimizer :=
  if 0 <? warmup_batches then
    if current_step <? warmup_batches then
      {| param_groups :=
           set_lr (lr_scale current_step warmup_batches * defaults_lr o)%Q
             <$> param_groups o;
         defaults_lr := defaults_lr o |}
    else o
  else o.

(** *** Metrics *)

Record metrics_dict := {
  n_examples : Z;
  n_correct : Z;
  n_batches : Z;
  cross_entropy : Q;
  cluster_cost : Q;
  loss : Q;
  separation_cost : Q;
  avg_separation_cost : Q
}.

Definition reset_metrics : metrics_dict :=
  {| n_examples := 0;
     n_correct := 0;
     n_batches := 0;
     cross_entropy := 0;
     cluster_cost := 0;
     loss := 0;
     separation_cost := 0;
     avg_separation_cost := 0 |}.

(** *** Hyper-parameters: the arguments of [__init__] *)

Record hparams := {
  model_dir : string;
  last_layer_only : bool;
  class_specific : bool;
  num_warm_epochs : Z;
  loss_weight_crs_ent : Q;
  loss_weight_clst : Q;
  loss_weight_sep : Q;
  loss_weight_l1 : Q;
  joint_optimizer_lr_features : Q;
  joint_optimizer_lr_add_on_layers : Q;
  joint_optimizer_lr_prototype_vectors : Q;
  joint_optimizer_weight_decay : Q;
  warm_optimizer_lr_add_on_layers : Q;
  warm_optimizer_lr_prototype_vectors : Q;
  warm_optimizer_weight_decay : Q;
  last_layer_optimizer_lr : Q;
  warmup_batches : Z;
  gradient_clipping : option Q
}.

Definition prototypes_dir (hp : hparams) : string :=
  os_path_join (model_dir hp) "prototypes".

Definition checkpoints_dir (hp : hparams) : string :=
  os_path_join (model_dir hp) "checkpoints".

(** *** What the tensor expressions of [_step] evaluate to on one batch

    The forward pass and the tensor arithmetic belong to torch.  A batch
    enters the model as the scalars those expressions produce under the
    current parameters: both branches of [if self.class_specific] are
    listed, [_step] reads the one it executes. *)
Record batch := {
  target_size : Z;            (* target.size(0) *)
  n_hits : Z;                 (* (predicted == target).sum().item() *)
  crs_ent : Q;                (* cross_entropy(output, target) *)
  cs_cluster_cost : Q;        (* mean(max_dist - inverted_distances) *)
  cs_separation_cost : Q;     (* mean(max_dist - inverted_distances_to_nontarget_prototypes) *)
  cs_avg_separation_cost : Q; (* mean(sum(min_distances * wrong) / sum(wrong)) *)
  cs_l1 : Q;                  (* (last_layer.weight * l1_mask).norm(p=1) *)
  min_cluster_cost : Q;       (* mean(min(min_distances, dim=1)) *)
  full_l1 : Q                 (* last_layer.weight.norm(p=1) *)
}.

(** *** Calls into the framework *)

Inductive optim_id := WarmOptim | MainOptim.

Inductive log_msg :=
| WarmUpStart
| WarmUpEnd
| SavingBestModel (accuracy loss_ : Q).

Inductive call :=
| MakeDirs (path : string)
| ZeroGrad (o : optim_id)
| ManualBackward (loss_ : Q)
| ClipGradNorm (max_norm : Q)
| OptimizerStep (o : optim_id)
| SelfLog (name : string) (value : option Q)
| Log (msg : log_msg)
| WarmOnly
| Joint
| LastOnly
| SchedulerStep (metric : Q)
| SaveModel (model_dir_ model_name : string) (accu target_accu : Q).

(** [ReduceLROnPlateau(main_optimizer)]. *)
Inductive scheduler := ReduceLROnPlateau (o : optim_id).

(** *** The module's state

    [metrics], [lr_scheduler] and [best_acc] are attributes of the module.
    [current_epoch], [global_step] and [optimizers] are what the trainer
    answers to [self.current_epoch], [self.trainer.global_step] and
    [self.optimizers()]; there are no optimizers before the trainer has
    stored the pair [configure_optimizers] returns. *)
Record state := {
  metrics : gmap string metrics_dict;
  lr_scheduler : option scheduler;
  best_acc : Q;
  current_epoch : Z;
  global_step : Z;
  optimizers : option (optimizer * optimizer);
  calls : list call
}.

Definition set_metrics (v : gmap string metrics_dict) (s : state) : state :=
  {| metrics := v; lr_scheduler := lr_scheduler s; best_acc := best_acc s;
     current_epoch := current_epoch s; global_step := global_step s;
     optimizers := optimizers s; calls := calls s |}.

Definition set_lr_scheduler (v : option scheduler) (s : state) : state :=
  {| metrics := metrics s; lr_scheduler := v; best_acc := best_acc s;
     current_epoch := current_epoch s; global_step := global_step s;
     optimizers := optimizers s; calls := calls s |}.

Definition set_best_acc (v : Q) (s : state) : state :=
  {| metrics := metrics s; lr_scheduler := lr_scheduler s; best_acc := v;
     current_epoch := current_epoch s; global_step := global_step s;
     optimizers := optimizers s; calls := calls s |}.

Definition set_optimizers (v : option (optimizer * optimizer)) (s : state)
    : state :=
  {| metrics := metrics s; lr_scheduler := lr_scheduler s;
     best_acc := best_acc s;
     current_epoch := current_epoch s; global_step := global_step s;
     optimizers := v; calls := calls s |}.

Definition set_trainer (epoch step : Z) (s : state) : state :=
  {| metrics := metrics s; lr_scheduler := lr_scheduler s;
     best_acc := best_acc s;
     current_epoch := epoch; global_step := step;
     optimizers := optimizers s; calls := calls s |}.

(** The framework is called: the call is appended to the record. *)
Definition emit (cs : list call) (s : state) : state :=
  {| metrics := metrics s; lr_scheduler := lr_scheduler s;
     best_acc := best_acc s;
     current_epoch := current_epoch s; global_step := global_step s;
     optimizers := optimizers s; calls := calls s ++ cs |}.

Definition split_keys : list string :=
  ["train"; "val"; "test"; "train_last_layer"].

Definition __init__ (hp : hparams) : state :=
  {| metrics :=
       foldl (fun d split_key => <[split_key := reset_metrics]> d) ∅ split_keys;
     lr_scheduler := None;
     best_acc := 0;
     current_epoch := 0;
     global_step := 0;
     optimizers := None;
     calls := [MakeDirs (prototypes_dir hp); MakeDirs (checkpoints_dir hp)] |}.

(** *** [_step] *)

(** The loss tensor built at the end of [_step], as its [.item()]. *)
Definition step_loss (hp : hparams) (b : batch) : Q :=
  if class_specific hp then
    (loss_weight_crs_ent hp * crs_ent b
     + loss_weight_clst hp * cs_cluster_cost b
     + loss_weight_sep hp * cs_separation_cost b
     + loss_weight_l1 hp * cs_l1 b)%Q
  else
    (loss_weight_crs_ent hp * crs_ent b
     + loss_weight_clst hp * min_cluster_cost b
     + loss_weight_sep hp * full_l1 b)%Q.

(** The value of the local [separation_cost] when the loss is built: it is
    initialised to [0] and reassigned only in the class-specific branch. *)
Definition step_separation_cost (hp : hparams) (b : batch) : Q :=
  if class_specific hp then cs_separation_cost b else 0.

Definition step_cluster_cost (hp : hparams) (b : batch) : Q :=
  if class_specific hp then cs_cluster_cost b else min_cluster_cost b.

Definition step_l1 (hp : hparams) (b : batch) : Q :=
  if class_specific hp then cs_l1 b else full_l1 b.

(** The in-place updates [metrics[...] += ...] of one call. *)
Definition accumulate (hp : hparams) (b : batch) (m : metrics_dict)
    : metrics_dict :=
  {| n_examples := n_examples m + target_size b;
     n_correct := n_correct m + n_hits b;
     n_batches := n_batches m + 1;
     cross_entropy := (cross_entropy m + crs_ent b)%Q;
     cluster_cost := (cluster_cost m + step_cluster_cost hp b)%Q;
     loss := (loss m + step_loss hp b)%Q;
     separation_cost :=
       if class_specific hp
       then (separation_cost m + cs_separation_cost b)%Q
       else separation_cost m;
     avg_separation_cost :=
       if class_specific hp
       then (avg_separation_cost m + cs_avg_separation_cost b)%Q
       else avg_separation_cost m |}.

(** The optimizer the training branch steps. *)
Definition select_optimizer (hp : hparams) (epoch : Z) : optim_id :=
  if last_layer_only hp then MainOptim
  else if epoch <? num_warm_epochs hp then WarmOptim
  else MainOptim.

Definition get_optimizer (o : optim_id) (opts : optimizer * optimizer)
    : optimizer :=
  match o with WarmOptim => opts.1 | MainOptim => opts.2 end.

Definition put_optimizer (o : optim_id) (v : optimizer)
    (opts : optimizer * optimizer) : optimizer * optimizer :=
  match o with WarmOptim => (v, opts.2) | MainOptim => (opts.1, v) end.

Definition clip_calls (hp : hparams) : list call :=
  match gradient_clipping hp with
  | Some c => [ClipGradNorm c]
  | None => []
  end.

Definition _step (hp : hparams) (split_key : string) (b : batch) (s : state)
    : result state :=
  match metrics s !! split_key with
  | None => Raise (KeyError split_key)
  | Some m =>
      let s := set_metrics (<[split_key := accumulate hp b m]> (metrics s)) s in
      let loss_value := step_loss hp b in
      if bool_decide (split_key = "train") then
        match optimizers s with
        | None => Raise (AttributeError "optimizers")
        | Some opts =>
            let which := select_optimizer hp (current_epoch s) in
            let optimizer :=
              update_lr_warmup (get_optimizer which opts)
                (global_step s) (warmup_batches hp) in
            let s := set_optimizers (Some (put_optimizer which optimizer opts)) s in
            let s := emit [ZeroGrad which; ManualBackward loss_value] s in
            let s := emit (clip_calls hp) s in
            let s := emit [OptimizerStep which;
                           SelfLog "train_loss_step" (Some loss_value)] s in
            Ok (emit [SelfLog "lr" (get_lr optimizer)] s)
        end
      else Ok s
  end.

Definition training_step (hp : hparams) (b : batch) (batch_idx : Z)
    : state → result state := _step hp "train" b.

Definition validation_step (hp : hparams) (b : batch) (batch_idx : Z)
    : state → result state := _step hp "val" b.

Definition test_step (hp : hparams) (b : batch) (batch_idx : Z)
    : state → result state := _step hp "test" b.

(** *** [on_train_epoch_start] *)

Definition on_train_epoch_start (hp : hparams) (s : state) : state :=
  let s :=
    if last_layer_only hp then emit [LastOnly] s
    else
      let s :=
        if current_epoch s =? 0 then emit [Log WarmUpStart] s else s in
      if current_epoch s <? num_warm_epochs hp then emit [WarmOnly] s
      else
        let s := emit [Joint] s in
        if current_epoch s =? num_warm_epochs hp
        then emit [Log WarmUpEnd] s else s in
  set_metrics ((fun _ => reset_metrics) <$> metrics s) s.

(** *** [on_validation_epoch_end] *)

(** Python's [/] on numbers. *)
Definition truediv (a b : Q) : result Q :=
  if Qeq_bool b 0 then Raise ZeroDivisionError else Ok (a / b)%Q.

Definition Qlt_bool (a b : Q) : bool := negb (Qle_bool b a).

Definition scheduler_step (metric : Q) (s : state) : result state :=
  match lr_scheduler s with
  | None => Raise (AttributeError "step")
  | Some _ => Ok (emit [SchedulerStep metric] s)
  end.

Definition stage_key (hp : hparams) (epoch : Z) : string :=
  if last_layer_only hp then "push"
  else if epoch <? num_warm_epochs hp then "warmup"
  else "nopush".

Definition on_validation_epoch_end (hp : hparams) (s : state) : result state :=
  match metrics s !! "val" with
  | None => Raise (KeyError "val")
  | Some m =>
      val_acc ← truediv (inject_Z (n_correct m)) (inject_Z (n_examples m));
      val_loss ← truediv (loss m) (inject_Z (n_batches m));
      s ← (if last_layer_only hp then
             scheduler_step val_acc (emit [SelfLog "training_stage" (Some 2%Q)] s)
           else if current_epoch s <? num_warm_epochs hp then
             Ok (emit [SelfLog "training_stage" (Some 0%Q)] s)
           else
             scheduler_step val_acc (emit [SelfLog "training_stage" (Some 1%Q)] s));
      let stage_key := stage_key hp (current_epoch s) in
      let s :=
        if Qlt_bool (best_acc s) val_acc then
          let s := emit [Log (SavingBestModel val_acc val_loss)] s in
          let s := set_best_acc val_acc s in
          emit [SaveModel (checkpoints_dir hp) (stage_key +:+ "_best") val_acc 0] s
        else s in
      Ok (emit [SaveModel (checkpoints_dir hp) (stage_key +:+ "_last") val_acc 0] s)
  end.

(** What a train epoch start appends to the record of calls. *)
Definition train_epoch_start_calls (hp : hparams) (epoch : Z) : list call :=
  if last_layer_only hp then [LastOnly]
  else
    (if epoch =? 0 then [Log WarmUpStart] else [])
    ++ (if epoch <? num_warm_epochs hp then [WarmOnly]
        else Joint :: (if epoch =? num_warm_epochs hp
                       then [Log WarmUpEnd] else [])).

(** What a validation epoch end appends to the record of calls. *)
Definition validation_end_calls (hp : hparams) (epoch : Z) (best_so_far val_acc val_loss : Q)
    : list call :=
  (if last_layer_only hp then
     [SelfLog "training_stage" (Some 2%Q); SchedulerStep val_acc]
   else if epoch <? num_warm_epochs hp then
     [SelfLog "training_stage" (Some 0%Q)]
   else
     [SelfLog "training_stage" (Some 1%Q); SchedulerStep val_acc])
  ++ (if Qlt_bool best_so_far val_acc then
        [Log (SavingBestModel val_acc val_loss);
         SaveModel (checkpoints_dir hp)
           (stage_key hp epoch +:+ "_best") val_acc 0]
      else [])
  ++ [SaveModel (checkpoints_dir hp) (stage_key hp epoch +:+ "_last") val_acc 0].

(** *** [configure_optimizers] *)

Definition warm_optimizer_specs (hp : hparams) : list param_group :=
  [ {| params := "add_on_layers";
       lr := warm_optimizer_lr_add_on_layers hp;
       weight_decay := Some (warm_optimizer_weight_decay hp) |};
    {| params := "prototype_vectors";
       lr := warm_optimizer_lr_prototype_vectors hp;
       weight_decay := None |} ].

Definition main_optimizer_specs (hp : hparams) : list param_group :=
  if last_layer_only hp then
    [ {| params := "last_layer";
         lr := last_layer_optimizer_lr hp;
         weight_decay := None |} ]
  else
    [ {| params := "features";
         lr := joint_optimizer_lr_features hp;
         weight_decay := Some (joint_optimizer_weight_decay hp) |};
      {| params := "add_on_layers";
         lr := joint_optimizer_lr_add_on_layers hp;
         weight_decay := Some (joint_optimizer_weight_decay hp) |};
      {| params := "prototype_vectors";
         lr := joint_optimizer_lr_prototype_vectors hp;
         weight_decay := None |} ].

Definition configure_optimizers (adam_default_lr : Q) (hp : hparams)
    (s : state) : state * (optimizer * optimizer) :=
  let warm_optimizer := Adam adam_default_lr (warm_optimizer_specs hp) in
  let main_optimizer := Adam adam_default_lr (main_optimizer_specs hp) in
  (set_lr_scheduler (Some (ReduceLROnPlateau MainOptim)) s,
   (warm_optimizer, main_optimizer)).

(** *** The trainer's side

    The trainer builds the module, stores the optimizers it asks for, and
    from then on calls the hooks; between two hooks it advances its
    counters, and the framework may act on the optimizers it owns (the
    scheduler lowers a learning rate, for one). *)
Definition trainer_setup (adam_default_lr : Q) (hp : hparams) : state :=
  let '(s, opts) := configure_optimizers adam_default_lr hp (__init__ hp) in
  set_optimizers (Some opts) s.

Inductive hook :=
| TrainingStep (b : batch) (batch_idx : Z)
| ValidationStep (b : batch) (batch_idx : Z)
| TestStep (b : batch) (batch_idx : Z)
| OnTrainEpochStart
| OnValidationEpochEnd
| TrainerAdvance (epoch step : Z)
| FrameworkSetsOptimizers (opts : optimizer * optimizer).

Definition call_hook (hp : hparams) (h : hook) (s : state) : result state :=
  match h with
  | TrainingStep b i => training_step hp b i s
  | ValidationStep b i => validation_step hp b i s
  | TestStep b i => test_step hp b i s
  | OnTrainEpochStart => Ok (on_train_epoch_start hp s)
  | OnValidationEpochEnd => on_validation_epoch_end hp s
  | TrainerAdvance epoch step => Ok (set_trainer epoch step s)
  | FrameworkSetsOptimizers opts => Ok (set_optimizers (Some opts) s)
  end.

Fixpoint run (hp : hparams) (hs : list hook) (s : state) : result state :=
  match hs with
  | [] => Ok s
  | h :: hs => s ← call_hook hp h s; run hp hs s
  end.

(** A state the trainer can bring the module to. *)
Definition reachable (adam_default_lr : Q) (hp : hparams) (s : state) : Prop :=
  ∃ hs, run hp hs (trainer_setup adam_default_lr hp) = Ok s.

(** *** The specification's reading of the loss

    The weighted sum of the four terms, each with its own weight. *)
Definition weighted_sum_of_four_terms (hp : hparams)
    (cross_entropy_ cluster_cost_ separation_cost_ l1 : Q) : Q :=
  (loss_weight_crs_ent hp * cross_entropy_
   + loss_weight_clst hp * cluster_cost_
   + loss_weight_sep hp * separation_cost_
   + loss_weight_l1 hp * l1)%Q.

(** Projections of a record of calls. *)
Definition saved (cs : list call) : list (string * Q) :=
  omap (fun c => match c with
                 | SaveModel _ name accu _ => Some (name, accu)
                 | _ => None
                 end) cs.

Definition is_phase_call (c : call) : bool :=
  match c with
  | WarmOnly | Joint | LastOnly => true
  | _ => false
  end.

Definition phase_calls (cs : list call) : list call :=
  filter (fun c => is_phase_call c = true) cs.

Definition is_optimizer_call (c : call) : bool :=
  match c with
  | ZeroGrad _ | ManualBackward _ | ClipGradNorm _ | OptimizerStep _ => true
  | _ => false
  end.

Definition optimizer_calls (cs : list call) : list call :=
  filter (fun c => is_optimizer_call c = true) cs.

Definition stepped_optimizers (cs : list call) : list optim_id :=
  omap (fun c => match c with OptimizerStep o => Some o | _ => None end) cs.

(** The state of a module the trainer has set up: the four metric dicts
    exist, the optimizers are stored and the scheduler is built. *)
Definition configured (s : state) : Prop :=
  (∀ split_key, split_key ∈ split_keys → is_Some (metrics s !! split_key))
  ∧ is_Some (optimizers s)
  ∧ is_Some (lr_scheduler s).

(** *** Sample configurations *)

Definition sample_hparams (last_layer_only_ class_specific_ : bool) : hparams :=
  {| model_dir := "results/run";
     last_layer_only := last_layer_only_;
     class_specific := class_specific_;
     num_warm_epochs := 3;
     loss_weight_crs_ent := 1;
     loss_weight_clst := 8 # 10;
     loss_weight_sep := - 8 # 100;
     loss_weight_l1 := 1 # 10000;
     joint_optimizer_lr_features := 1 # 10000;
     joint_optimizer_lr_add_on_layers := 3 # 1000;
     joint_optimizer_lr_prototype_vectors := 3 # 1000;
     joint_optimizer_weight_decay := 1 # 1000;
     warm_optimizer_lr_add_on_layers := 3 # 1000;
     warm_optimizer_lr_prototype_vectors := 3 # 1000;
     warm_optimizer_weight_decay := 1 # 1000;
     last_layer_optimizer_lr := 1 # 10000;
     warmup_batches := 10;
     gradient_clipping := Some (1 # 2) |}.

Definition sample_batch : batch :=
  {| target_size := 4;
     n_hits := 3;
     crs_ent := 2;
     cs_cluster_cost := 3;
     cs_separation_cost := 7;
     cs_avg_separation_cost := 6;
     cs_l1 := 1;
     min_cluster_cost := 3;
     full_l1 := 5 |}.

Definition sample_state (last_layer_only_ class_specific_ : bool) : state :=
  trainer_setup (1 # 1000) (sample_hparams last_layer_only_ class_specific_).

(** The sample module after one validation batch. *)
Definition sample_validated_state (last_layer_only_ class_specific_ : bool)
    : state :=
  let s := sample_state last_layer_only_ class_specific_ in
  set_metrics
    (<["val" := accumulate (sample_hparams last_layer_only_ class_specific_)
                  sample_batch reset_metrics]> (metrics s)) s.

(** *** [_epoch_end] and the three epoch-end hooks

    [l1] is [self.ppnet.last_layer.weight.norm(p=1).item()] and
    [p_avg_pair_dist] is [torch.mean(list_of_distances(p, p)).item()]: the
    two tensor values the hook logs after the metrics. *)
Definition epoch_end_keys : list (string * (metrics_dict → Q)) :=
  [("loss", loss); ("cross_entropy", cross_entropy);
   ("cluster_cost", cluster_cost); ("separation_cost", separation_cost);
   ("avg_separation_cost", avg_separation_cost)].

(** The loop [for key in [...]: self.log(f'{split_key}/{key}',
    metrics[key] / n_batches)]. *)
Fixpoint log_means (split_key : string) (n_batches_ : Z)
    (keys : list (string * (metrics_dict → Q))) (m : metrics_dict)
    (s : state) : result state :=
  match keys with
  | [] => Ok s
  | (key, get) :: keys =>
      v ← truediv (get m) (inject_Z n_batches_);
      log_means split_key n_batches_ keys m
        (emit [SelfLog (split_key +:+ "/" +:+ key) (Some v)] s)
  end.

Definition _epoch_end (split_key : string) (l1 p_avg_pair_dist : Q)
    (s : state) : result state :=
  match metrics s !! split_key with
  | None => Raise (KeyError split_key)
  | Some m =>
      s ← log_means split_key (n_batches m) epoch_end_keys m s;
      accuracy ← truediv (inject_Z (n_correct m)) (inject_Z (n_examples m));
      Ok (emit [SelfLog (split_key +:+ "/accuracy") (Some accuracy);
                SelfLog "l1" (Some l1);
                SelfLog "p dist pair" (Some p_avg_pair_dist)] s)
  end.

Definition training_epoch_end : Q → Q → state → result state :=
  _epoch_end "train".

Definition validation_epoch_end : Q → Q → state → result state :=
  _epoch_end "val".

Definition test_epoch_end : Q → Q → state → result state :=
  _epoch_end "test".

(** *** Vocabulary for statements about several hooks *)

Definition validation_steps (bs : list (batch * Z)) : list hook :=
  (fun p => ValidationStep p.1 p.2) <$> bs.

Definition sum_Z (f : batch → Z) (bs : list batch) : Z :=
  foldr (fun b acc => f b + acc) 0 bs.

Definition sum_Q (f : batch → Q) (bs : list batch) : Q :=
  foldr (fun b acc => (f b + acc)%Q) 0%Q bs.

Definition is_training_step (h : hook) : bool :=
  match h with TrainingStep _ _ => true | _ => false end.

Definition count_training_steps (hs : list hook) : nat :=
  length (filter (fun h => is_training_step h = true) hs).

Definition scheduler_steps (cs : list call) : list Q :=
  omap (fun c => match c with SchedulerStep v => Some v | _ => None end) cs.

Definition log_msgs (cs : list call) : list log_msg :=
  omap (fun c => match c with Log msg => Some msg | _ => None end) cs.

Definition self_logged (cs : list call) : list (string * option Q) :=
  omap (fun c => match c with
                 | SelfLog name v => Some (name, v)
                 | _ => None
                 end) cs.

(** A batch cannot be right more often than it has targets. *)
Definition plausible_batch (b : batch) : Prop :=
  0 ≤ n_hits b ≤ target_size b.

Definition plausible_hook (h : hook) : Prop :=
  match h with
  | TrainingStep b _ | ValidationStep b _ | TestStep b _ => plausible_batch b
  | _ => True
  end.

End SlidingWindow.

(** * Properties of the data module *)

Section DataModule.
Import Segmentation.

Implicit Types (self : PatchClassificationDataModule).
Implicit Types (ds : PatchClassificationDataset).
Implicit Types (kwargs : gmap string pyval) (fs : file_system).

Lemma os_path_exists_true fs p :
  os_path_exists fs p = true ↔ is_Some (os_stat fs p).
Proof. unfold os_path_exists. apply bool_decide_eq_true. Qed.

Lemma os_path_exists_false fs p :
  os_path_exists fs p = false ↔ os_stat fs p = None.
Proof.
  unfold os_path_exists. rewrite bool_decide_eq_false.
  rewrite <- eq_None_not_Some. done.
Qed.

Lemma os_stat_missing fs p : lstat fs p = None → os_stat fs p = None.
Proof. intros H. unfold os_stat. destruct (max_links fs); cbn; by rewrite H. Qed.

Lemma os_stat_file fs p (kind : file_kind) :
  lstat fs p = Some (File kind) → os_stat fs p = Some kind.
Proof. intros H. unfold os_stat. destruct (max_links fs); cbn; by rewrite H. Qed.

Lemma os_stat_dangling fs p (target : string) :
  lstat fs p = Some (Symlink target) → lstat fs target = None →
  os_stat fs p = None.
Proof.
  intros Hp Ht. unfold os_stat. destruct (max_links fs) as [|n]; cbn;
    rewrite Hp; [done|]. destruct n; cbn; by rewrite Ht.
Qed.

Lemma os_path_isdir_exists fs p :
  os_path_isdir fs p = true → os_path_exists fs p = true.
Proof.
  unfold os_path_isdir. rewrite bool_decide_eq_true, os_path_exists_true.
  intros ->. by eexists.
Qed.

Lemma get_data_loader_ok self ds kwargs :
  repeated_keyword kwargs = None →
  get_data_loader self ds kwargs =
    Ok {| dataset := ds; shuffle := negb (is_eval ds);
          num_workers := dataloader_n_jobs self; dl_kwargs := kwargs |}.
Proof. intros H. unfold get_data_loader. by rewrite H. Qed.

Lemma get_data_loader_raise self ds kwargs k :
  repeated_keyword kwargs = Some k →
  get_data_loader self ds kwargs = Raise (TypeError k).
Proof. intros H. unfold get_data_loader. by rewrite H. Qed.

(** C6, as the specification words it, does not hold: [os.path.exists]
    is satisfied by a regular file named [annotations], so there is a file
    system in which the directory is missing and [prepare_data] still
    returns normally. *)
Lemma prepare_data_accepts_regular_file :
  ¬ (∀ data_path fs self,
       (∃ msg, prepare_data data_path fs self = Raise (ValueError msg))
       ↔ os_path_isdir fs (os_path_join data_path "annotations") = false).
Proof.
  intros H.
  destruct (H "data" (single_entry_fs "data/annotations" (File RegularFile))
              (__init__ 8 513 4 1)) as [_ Hraise].
  destruct Hraise as [msg Hmsg]; [by vm_compute|].
  vm_compute in Hmsg. discriminate Hmsg.
Qed.

(** C6, amended: [prepare_data] raises its [ValueError] exactly when
    [os.stat] finds nothing at [os.path.join(data_path, 'annotations')]:
    no entry, or a symbolic link that leads nowhere.  What it finds need
    not be a directory: a regular file of that name passes, as the
    directory does.  The function takes the file system and the module and
    yields only the outcome: neither is written. *)
Theorem prepare_data_raises_iff_path_missing data_path fs self :
  let p := os_path_join data_path "annotations" in
  (prepare_data data_path fs self =
     Raise (ValueError
       "Please download dataset and preprocess it using 'preprocess.py' script")
   ↔ os_stat fs p = None)
  ∧ (prepare_data data_path fs self = Ok () ↔ is_Some (os_stat fs p))
  ∧ (os_path_isdir fs p = true → prepare_data data_path fs self = Ok ())
  ∧ (lstat fs p = Some (File RegularFile) →
       prepare_data data_path fs self = Ok ())
  ∧ (lstat fs p = None →
       ∃ msg, prepare_data data_path fs self = Raise (ValueError msg))
  ∧ (∀ target, lstat fs p = Some (Symlink target) → lstat fs target = None →
       ∃ msg, prepare_data data_path fs self = Raise (ValueError msg)).
Proof.
  intros p. unfold prepare_data. fold p.
  destruct (os_path_exists fs p) eqn:E; simpl.
  - pose proof (proj1 (os_path_exists_true fs p) E) as Hs.
    split_and!; try done.
    + split; [done|]. intros Hn. rewrite Hn in Hs. by destruct Hs.
    + intros Hn. apply os_stat_missing in Hn. rewrite Hn in Hs.
      by destruct Hs.
    + intros target Hp Ht. rewrite (os_stat_dangling _ _ _ Hp Ht) in Hs.
      by destruct Hs.
  - pose proof (proj1 (os_path_exists_false fs p) E) as Hn.
    split_and!; try done.
    + split; [done|]. rewrite Hn. by intros [? ?].
    + intros Hd. apply os_path_isdir_exists in Hd. congruence.
    + intros Hf. apply os_stat_file in Hf. congruence.
    + intros _. by eexists.
    + intros target _ _. by eexists.
Qed.

Lemma prepare_data_raises_iff_path_missing_witness :
  os_path_isdir
    (single_entry_fs "/datasets/cityscapes/annotations" (File Directory))
    (os_path_join "/datasets/cityscapes" "annotations") = true
  ∧ prepare_data "/datasets/cityscapes"
      (single_entry_fs "/datasets/cityscapes/annotations" (File Directory))
      (__init__ 8 513 4 1) = Ok ().
Proof.
  split; [by vm_compute|].
  destruct (prepare_data_raises_iff_path_missing "/datasets/cityscapes"
              (single_entry_fs "/datasets/cityscapes/annotations"
                 (File Directory))
              (__init__ 8 513 4 1)) as (_ & _ & Hdir & _).
  apply Hdir. by vm_compute.
Defined.

(** C7: every dataloader the module constructs receives
    [num_workers = dataloader_n_jobs], where a configured value of [-1]
    stands for [multiprocessing.cpu_count()]; the only calls that construct
    nothing are those whose [**kwargs] repeat [dataset], [shuffle] or
    [num_workers], which Python rejects with a [TypeError]. *)
Theorem num_workers_is_dataloader_n_jobs
    (cpu_count image_size n_jobs multiplier : Z) (meth : loader_method)
    ds kwargs :
  let self := __init__ cpu_count image_size n_jobs multiplier in
  let expected := if decide (n_jobs = -1) then cpu_count else n_jobs in
  let outcome :=
    match repeated_keyword kwargs with
    | Some k => Raise (TypeError k)
    | None => Ok expected
    end in
  num_workers <$> get_data_loader self ds kwargs = outcome
  ∧ num_workers <$> call_loader meth self kwargs = outcome.
Proof.
  intros self expected outcome.
  assert (Hn : dataloader_n_jobs self = expected).
  { unfold self, expected, __init__; simpl.
    destruct (decide (n_jobs = -1)) as [->|Hne].
    - by rewrite bool_decide_eq_false_2 by (intros H; by apply H).
    - by rewrite bool_decide_eq_true_2. }
  assert (Hg : ∀ d, num_workers <$> get_data_loader self d kwargs = outcome).
  { intros d. unfold outcome.
    destruct (repeated_keyword kwargs) as [k|] eqn:E.
    - by rewrite (get_data_loader_raise _ _ _ _ E).
    - rewrite (get_data_loader_ok _ _ _ E).
      unfold fmap, result_fmap; cbn [num_workers]. by rewrite Hn. }
  split; [apply Hg|].
  destruct meth; simpl; apply Hg.
Qed.

(** C9: the test dataloader is built on the validation split: its dataset
    has [split_key = 'val'] and [is_eval = True], and it is the very
    loader [val_dataloader] builds. *)
Theorem test_dataloader_uses_val_split self kwargs :
  repeated_keyword kwargs = None →
  ∃ dl, test_dataloader self kwargs = Ok dl
        ∧ split_key (dataset dl) = "val"
        ∧ is_eval (dataset dl) = true
        ∧ val_dataloader self kwargs = Ok dl.
Proof.
  intros H. unfold test_dataloader, val_dataloader.
  rewrite (get_data_loader_ok _ _ _ H). eexists. split_and!; done.
Qed.

Lemma test_dataloader_uses_val_split_witness :
  repeated_keyword {[ "batch_size" := PyInt 4 ]} = None
  ∧ ∃ dl, test_dataloader (__init__ 8 513 (-1) 1)
            {[ "batch_size" := PyInt 4 ]} = Ok dl
          ∧ split_key (dataset dl) = "val"
          ∧ is_eval (dataset dl) = true
          ∧ val_dataloader (__init__ 8 513 (-1) 1)
              {[ "batch_size" := PyInt 4 ]} = Ok dl.
Proof.
  split; [by vm_compute|].
  apply (test_dataloader_uses_val_split (__init__ 8 513 (-1) 1)
           {[ "batch_size" := PyInt 4 ]}).
  by vm_compute.
Defined.

(** C10: [get_data_loader] passes [shuffle = not dataset.is_eval]; hence
    the train dataloader shuffles and the val, test and train-push
    dataloaders, whose datasets are built with [is_eval=True], do not. *)
Theorem shuffle_is_not_is_eval self kwargs :
  repeated_keyword kwargs = None →
  (∀ ds, ∃ dl, get_data_loader self ds kwargs = Ok dl
               ∧ shuffle dl = negb (is_eval ds))
  ∧ (∃ dl, train_dataloader self kwargs = Ok dl
           ∧ is_eval (dataset dl) = false ∧ shuffle dl = true)
  ∧ (∀ meth, meth ≠ TrainDataloader →
       ∃ dl, call_loader meth self kwargs = Ok dl
             ∧ is_eval (dataset dl) = true ∧ shuffle dl = false).
Proof.
  intros H. split_and!.
  - intros ds. rewrite (get_data_loader_ok _ _ _ H). by eexists.
  - unfold train_dataloader. rewrite (get_data_loader_ok _ _ _ H). by eexists.
  - intros meth Hm.
    destruct meth; [done|..]; simpl;
      unfold val_dataloader, test_dataloader, train_push_dataloader;
      rewrite (get_data_loader_ok _ _ _ H); by eexists.
Qed.

Lemma shuffle_is_not_is_eval_witness :
  repeated_keyword {[ "batch_size" := PyInt 4 ]} = None
  ∧ ∃ dl, train_dataloader (__init__ 8 513 4 1)
            {[ "batch_size" := PyInt 4 ]} = Ok dl
          ∧ is_eval (dataset dl) = false ∧ shuffle dl = true.
Proof.
  split; [by vm_compute|].
  apply (shuffle_is_not_is_eval (__init__ 8 513 4 1)
           {[ "batch_size" := PyInt 4 ]}).
  by vm_compute.
Defined.

End DataModule.

(** * Properties of the training module *)

Section Warmup.
Import SlidingWindow.

Implicit Types (o : optimizer) (pg : param_group).

Lemma py_min_le_l (a b : Q) : (py_min a b <= a)%Q.
Proof.
  unfold py_min. destruct (Qle_bool a b) eqn:E; [lra|].
  assert (¬ (a <= b)%Q) by (rewrite <- Qle_bool_iff; congruence). lra.
Qed.

Lemma py_min_mono (a b1 b2 : Q) :
  (b1 <= b2)%Q → (py_min a b1 <= py_min a b2)%Q.
Proof.
  intros Hb. unfold py_min.
  destruct (Qle_bool a b1) eqn:E1, (Qle_bool a b2) eqn:E2;
    try (apply Qle_bool_iff in E1); try (apply Qle_bool_iff in E2);
    try (assert (¬ (a <= b1)%Q) by (rewrite <- Qle_bool_iff; congruence));
    try (assert (¬ (a <= b2)%Q) by (rewrite <- Qle_bool_iff; congruence));
    lra.
Qed.

Lemma lr_scale_le_1 (current_step warmup_batches : Z) :
  (lr_scale current_step warmup_batches <= 1)%Q.
Proof. apply py_min_le_l. Qed.

Lemma lr_scale_mono (c1 c2 warmup_batches : Z) :
  0 < warmup_batches → c1 ≤ c2 →
  (lr_scale c1 warmup_batches <= lr_scale c2 warmup_batches)%Q.
Proof.
  intros Hw Hc. apply py_min_mono. unfold Qdiv.
  apply Qmult_le_compat_r.
  - rewrite <- Zle_Qle. lia.
  - apply Qinv_le_0_compat. change 0%Q with (inject_Z 0).
    rewrite <- Zle_Qle. lia.
Qed.

Lemma lr_scale_in_warmup (current_step warmup_batches : Z) :
  0 < warmup_batches → current_step < warmup_batches →
  (lr_scale current_step warmup_batches
   == inject_Z (current_step + 1) / inject_Z warmup_batches)%Q.
Proof.
  intros Hw Hc. unfold lr_scale, py_min.
  destruct (Qle_bool 1 _) eqn:E; [|reflexivity].
  apply Qle_bool_iff in E. apply Qle_antisym; [done|].
  apply Qle_shift_div_r.
  - change 0%Q with (inject_Z 0). rewrite <- Zlt_Qlt. lia.
  - rewrite Qmult_1_l, <- Zle_Qle. lia.
Qed.

Lemma update_lr_warmup_active o (current_step warmup_batches : Z) :
  0 < warmup_batches → current_step < warmup_batches →
  update_lr_warmup o current_step warmup_batches =
    {| param_groups :=
         set_lr (lr_scale current_step warmup_batches * defaults_lr o)%Q
           <$> param_groups o;
       defaults_lr := defaults_lr o |}.
Proof.
  intros Hw Hc. unfold update_lr_warmup.
  rewrite (proj2 (Z.ltb_lt _ _) Hw), (proj2 (Z.ltb_lt _ _) Hc). done.
Qed.

Lemma update_lr_warmup_idle o (current_step warmup_batches : Z) :
  ¬ (0 < warmup_batches ∧ current_step < warmup_batches) →
  update_lr_warmup o current_step warmup_batches = o.
Proof.
  intros H. unfold update_lr_warmup.
  destruct (0 <? warmup_batches) eqn:Ew; [|done].
  destruct (current_step <? warmup_batches) eqn:Ec; [|done].
  exfalso. apply H. split; by apply Z.ltb_lt.
Qed.

(** C8: [update_lr_warmup] leaves the optimizer as it is unless
    [warmup_batches > 0] and [current_step < warmup_batches]; in that case
    every param group gets
    [lr = min(1, (current_step + 1) / warmup_batches) * defaults['lr']]
    and nothing else of the optimizer changes.  For a default lr that is
    not negative, the lr so assigned is at most the default lr, and it
    does not decrease as [current_step] grows. *)
Theorem update_lr_warmup_spec o (current_step warmup_batches : Z) :
  let o' := update_lr_warmup o current_step warmup_batches in
  let warmup_lr c :=
    (py_min 1 (inject_Z (c + 1) / inject_Z warmup_batches) * defaults_lr o)%Q in
  (¬ (0 < warmup_batches ∧ current_step < warmup_batches) → o' = o)
  ∧ (0 < warmup_batches → current_step < warmup_batches →
       Forall (fun pg => lr pg = warmup_lr current_step) (param_groups o')
       ∧ params <$> param_groups o' = params <$> param_groups o
       ∧ weight_decay <$> param_groups o' = weight_decay <$> param_groups o
       ∧ defaults_lr o' = defaults_lr o)
  ∧ ((0 <= defaults_lr o)%Q →
       (warmup_lr current_step <= defaults_lr o)%Q
       ∧ ∀ later_step, 0 < warmup_batches → current_step ≤ later_step →
           (warmup_lr current_step <= warmup_lr later_step)%Q).
Proof.
  intros o' warmup_lr. split_and!.
  - apply update_lr_warmup_idle.
  - intros Hw Hc. unfold o'. rewrite (update_lr_warmup_active _ _ _ Hw Hc).
    cbn [param_groups defaults_lr]. split_and!; [| | |done].
    + apply Forall_fmap, Forall_true. done.
    + rewrite <- list_fmap_compose. done.
    + rewrite <- list_fmap_compose. done.
  - intros Hd. split.
    + unfold warmup_lr.
      fold (lr_scale current_step warmup_batches).
      pose proof (lr_scale_le_1 current_step warmup_batches) as H1.
      pose proof (Qmult_le_compat_r _ _ _ H1 Hd) as H2. lra.
    + intros later_step Hw Hc. unfold warmup_lr.
      apply Qmult_le_compat_r; [|done].
      by apply lr_scale_mono.
Qed.

Lemma update_lr_warmup_spec_witness :
  (0 <= defaults_lr (Adam (1 # 1000) (main_optimizer_specs
                                         (sample_hparams true true))))%Q
  ∧ (py_min 1 (inject_Z (2 + 1) / inject_Z 10) * (1 # 1000)
     <= 1 # 1000)%Q.
Proof.
  split; [by vm_compute|].
  apply (update_lr_warmup_spec
           (Adam (1 # 1000) (main_optimizer_specs (sample_hparams true true)))
           2 10).
  by vm_compute.
Defined.

End Warmup.

Section Step.
Import SlidingWindow.

Implicit Types (hp : hparams) (b : batch) (s : state) (m : metrics_dict).

(** The two ways [_step] ends normally. *)
Lemma _step_eval hp split_key b s m :
  metrics s !! split_key = Some m → split_key ≠ "train" →
  _step hp split_key b s =
    Ok (set_metrics (<[split_key := accumulate hp b m]> (metrics s)) s).
Proof.
  intros Hm Hs. unfold _step. rewrite Hm.
  by rewrite bool_decide_eq_false_2.
Qed.

Lemma _step_train hp b s m opts :
  metrics s !! "train" = Some m → optimizers s = Some opts →
  let which := select_optimizer hp (current_epoch s) in
  let optimizer :=
    update_lr_warmup (get_optimizer which opts) (global_step s)
      (warmup_batches hp) in
  _step hp "train" b s =
    Ok {| metrics := <["train" := accumulate hp b m]> (metrics s);
          lr_scheduler := lr_scheduler s;
          best_acc := best_acc s;
          current_epoch := current_epoch s;
          global_step := global_step s;
          optimizers := Some (put_optimizer which optimizer opts);
          calls := calls s
            ++ ([ZeroGrad which; ManualBackward (step_loss hp b)]
                ++ clip_calls hp
                ++ [OptimizerStep which;
                    SelfLog "train_loss_step" (Some (step_loss hp b));
                    SelfLog "lr" (get_lr optimizer)]) |}.
Proof.
  intros Hm Ho which optimizer. unfold _step. rewrite Hm.
  rewrite bool_decide_eq_true_2 by done.
  cbn [optimizers set_metrics]. rewrite Ho.
  unfold emit, set_optimizers, set_metrics; cbn.
  f_equal. f_equal. by rewrite <- !app_assoc.
Qed.

Lemma optimizer_calls_clip hp : optimizer_calls (clip_calls hp) = clip_calls hp.
Proof. unfold clip_calls. by destruct (gradient_clipping hp). Qed.

Lemma step_loss_class_specific hp b :
  class_specific hp = true →
  step_loss hp b =
    weighted_sum_of_four_terms hp (crs_ent b) (cs_cluster_cost b)
      (cs_separation_cost b) (cs_l1 b).
Proof. intros H. unfold step_loss. by rewrite H. Qed.

Lemma step_loss_not_class_specific hp b :
  class_specific hp = false →
  (step_loss hp b
   - weighted_sum_of_four_terms hp (crs_ent b) (min_cluster_cost b) 0 (full_l1 b)
   == (loss_weight_sep hp - loss_weight_l1 hp) * full_l1 b)%Q.
Proof.
  intros H. unfold step_loss, weighted_sum_of_four_terms. rewrite H. ring.
Qed.

(** C1 at [class_specific = False]: with the weights
    [crs_ent = 1], [clst = 0.8], [sep = -0.08], [l1 = 0.0001] and a batch
    with cross-entropy [2], cluster cost [3] and L1 norm [5], [_step] adds
    [1*2 + 0.8*3 + (-0.08)*5 = 4] to the loss accumulator: the L1 term is
    multiplied by [loss_weight_sep], and [loss_weight_l1] is not used.  The
    weighted sum of the four terms is [1*2 + 0.8*3 + (-0.08)*0 + 0.0001*5],
    which is a different number. *)
Theorem step_loss_not_class_specific_scales_l1_by_sep_weight :
  let hp := sample_hparams false false in
  let b := sample_batch in
  (∃ s' m', _step hp "val" b (sample_state false false) = Ok s'
            ∧ metrics s' !! "val" = Some m'
            ∧ (loss m' == 4)%Q)
  ∧ (step_loss hp b == 4)%Q
  ∧ (weighted_sum_of_four_terms hp (crs_ent b) (step_cluster_cost hp b)
       (step_separation_cost hp b) (step_l1 hp b) == 44005 # 10000)%Q
  ∧ ¬ (step_loss hp b
       == weighted_sum_of_four_terms hp (crs_ent b) (step_cluster_cost hp b)
            (step_separation_cost hp b) (step_l1 hp b))%Q.
Proof.
  intros hp b. split_and!.
  - eexists _, _. split_and!; [by vm_compute|by vm_compute|by vm_compute].
  - by vm_compute.
  - by vm_compute.
  - by vm_compute.
Qed.

End Step.

Section Hooks.
Import SlidingWindow.

Implicit Types (hp : hparams) (b : batch) (s : state) (m : metrics_dict).

Lemma Qlt_bool_iff (a b : Q) : Qlt_bool a b = true ↔ (a < b)%Q.
Proof.
  unfold Qlt_bool. rewrite negb_true_iff.
  destruct (Qle_bool b a) eqn:E.
  - apply Qle_bool_iff in E. split; [done|]. intros H. lra.
  - assert (¬ (b <= a)%Q) by (rewrite <- Qle_bool_iff; congruence).
    split; [|done]. intros _. lra.
Qed.

Lemma truediv_ok (a : Q) (n : Z) :
  n ≠ 0 → truediv a (inject_Z n) = Ok (a / inject_Z n)%Q.
Proof.
  intros Hn. unfold truediv.
  destruct (Qeq_bool (inject_Z n) 0) eqn:E; [|done].
  apply Qeq_bool_iff in E. unfold Qeq in E. simpl in E. lia.
Qed.

Lemma truediv_zero (a : Q) : truediv a (inject_Z 0) = Raise ZeroDivisionError.
Proof. done. Qed.

(** Without a single validation example the hook stops at its first
    division. *)
Lemma on_validation_epoch_end_no_examples hp s m :
  metrics s !! "val" = Some m → n_examples m = 0 →
  on_validation_epoch_end hp s = Raise ZeroDivisionError.
Proof.
  intros Hm He. unfold on_validation_epoch_end. rewrite Hm, He.
  by rewrite truediv_zero.
Qed.

Lemma on_train_epoch_start_eq hp s :
  on_train_epoch_start hp s =
    {| metrics := (fun _ => reset_metrics) <$> metrics s;
       lr_scheduler := lr_scheduler s;
       best_acc := best_acc s;
       current_epoch := current_epoch s;
       global_step := global_step s;
       optimizers := optimizers s;
       calls := calls s ++ train_epoch_start_calls hp (current_epoch s) |}.
Proof.
  unfold on_train_epoch_start, train_epoch_start_calls.
  destruct (last_layer_only hp); [done|].
  destruct (current_epoch s =? 0);
    cbn [current_epoch emit];
    destruct (current_epoch s <? num_warm_epochs hp);
    cbn [current_epoch emit];
    try destruct (current_epoch s =? num_warm_epochs hp);
    unfold set_metrics, emit;
    cbn [current_epoch best_acc metrics lr_scheduler global_step optimizers
         calls];
    f_equal; rewrite <- ?app_assoc, ?app_nil_r; done.
Qed.

Lemma on_validation_epoch_end_ok hp s m :
  metrics s !! "val" = Some m →
  n_examples m ≠ 0 → n_batches m ≠ 0 → is_Some (lr_scheduler s) →
  let val_acc := (inject_Z (n_correct m) / inject_Z (n_examples m))%Q in
  let val_loss := (loss m / inject_Z (n_batches m))%Q in
  on_validation_epoch_end hp s =
    Ok {| metrics := metrics s;
          lr_scheduler := lr_scheduler s;
          best_acc :=
            if Qlt_bool (best_acc s) val_acc then val_acc else best_acc s;
          current_epoch := current_epoch s;
          global_step := global_step s;
          optimizers := optimizers s;
          calls := calls s
            ++ validation_end_calls hp (current_epoch s) (best_acc s)
                 val_acc val_loss |}.
Proof.
  intros Hm He Hb [sch Hs] val_acc val_loss.
  unfold on_validation_epoch_end. rewrite Hm.
  rewrite (truediv_ok _ _ He), (truediv_ok _ _ Hb).
  unfold validation_end_calls, scheduler_step, mbind, result_bind.
  fold val_acc val_loss.
  destruct (last_layer_only hp);
    [|destruct (current_epoch s <? num_warm_epochs hp) eqn:Ew];
    cbn [lr_scheduler emit]; rewrite ?Hs;
    cbn [current_epoch best_acc emit set_best_acc metrics lr_scheduler
         global_step optimizers calls]; rewrite ?Ew;
    destruct (Qlt_bool (best_acc s) val_acc);
    cbn [current_epoch best_acc emit set_best_acc metrics lr_scheduler
         global_step optimizers calls];
    unfold emit, set_best_acc;
    cbn [current_epoch best_acc metrics lr_scheduler global_step optimizers
         calls];
    rewrite ?Hs; f_equal; f_equal; rewrite <- ?app_assoc; done.
Qed.

Lemma on_validation_epoch_end_inv hp s s' :
  on_validation_epoch_end hp s = Ok s' →
  metrics s' = metrics s ∧ lr_scheduler s' = lr_scheduler s
  ∧ optimizers s' = optimizers s ∧ (best_acc s <= best_acc s')%Q.
Proof.
  unfold on_validation_epoch_end, scheduler_step, mbind, result_bind.
  destruct (metrics s !! "val") as [m|]; [|done].
  destruct (truediv _ _) as [val_acc|]; [|done].
  destruct (truediv _ _) as [val_loss|]; [|done].
  destruct (last_layer_only hp);
    [|destruct (current_epoch s <? num_warm_epochs hp)];
    cbn [lr_scheduler emit];
    try (destruct (lr_scheduler s) eqn:El; [|done]);
    cbn [best_acc emit];
    destruct (Qlt_bool (best_acc s) val_acc) eqn:Eb;
    intros [= <-]; try (apply Qlt_bool_iff in Eb);
    cbn [metrics lr_scheduler optimizers best_acc emit set_best_acc];
    split_and!; try done; lra.
Qed.

Lemma _step_inv hp split_key b s s' :
  _step hp split_key b s = Ok s' →
  (∃ m, metrics s !! split_key = Some m
        ∧ metrics s' = <[split_key := accumulate hp b m]> (metrics s))
  ∧ lr_scheduler s' = lr_scheduler s ∧ best_acc s' = best_acc s
  ∧ (is_Some (optimizers s) → is_Some (optimizers s')).
Proof.
  unfold _step. destruct (metrics s !! split_key) as [m|]; [|done].
  case_bool_decide.
  - cbn [optimizers set_metrics]. destruct (optimizers s) as [opts|]; [|done].
    intros [= <-]; cbn. split_and!; eauto.
  - intros [= <-]; cbn. split_and!; eauto.
Qed.

Lemma configured_setup (adam_default_lr : Q) hp :
  configured (trainer_setup adam_default_lr hp).
Proof.
  split_and!; [|by eexists|by eexists].
  intros k Hk. unfold split_keys in Hk.
  repeat (apply elem_of_cons in Hk as [->|Hk]; [eexists; by vm_compute|]).
  by apply elem_of_nil in Hk.
Qed.

Lemma configured_call_hook hp h s s' :
  configured s → call_hook hp h s = Ok s' → configured s'.
Proof.
  intros (Hk & Ho & Hs) Hc.
  assert (Hstep : ∀ k b, _step hp k b s = Ok s' → configured s').
  { intros k b H. apply _step_inv in H as ((m & Hm & Hms) & Hl & _ & Ho').
    split_and!; [|by auto|by rewrite Hl].
    intros k' Hk'. rewrite Hms. apply lookup_insert_is_Some'. right.
    by apply Hk. }
  destruct h; cbn in Hc; try (by eapply Hstep).
  - injection Hc as <-. rewrite on_train_epoch_start_eq.
    split_and!; [|done|done].
    intros k Hk'. cbn [metrics]. rewrite lookup_fmap.
    apply fmap_is_Some. by apply Hk.
  - apply on_validation_epoch_end_inv in Hc as (Hm & Hl & Hopt & _).
    split_and!; [by rewrite Hm|by rewrite Hopt|by rewrite Hl].
  - injection Hc as <-. done.
  - injection Hc as <-. split_and!; [done|by eexists|done].
Qed.

Lemma configured_run hp hs s s' :
  configured s → run hp hs s = Ok s' → configured s'.
Proof.
  revert s. induction hs as [|h hs IH]; intros s Hc Hr; cbn in Hr.
  - by injection Hr as <-.
  - destruct (call_hook hp h s) as [s1|] eqn:E; [|done].
    eapply IH; [|exact Hr]. by eapply configured_call_hook.
Qed.

Lemma configured_reachable (adam_default_lr : Q) hp s :
  reachable adam_default_lr hp s → configured s.
Proof.
  intros [hs Hr]. eapply configured_run; [|exact Hr]. apply configured_setup.
Qed.

Lemma best_acc_call_hook hp h s s' :
  call_hook hp h s = Ok s' → (best_acc s <= best_acc s')%Q.
Proof.
  intros Hc.
  assert (Hstep : ∀ k b, _step hp k b s = Ok s' → (best_acc s <= best_acc s')%Q).
  { intros k b H. apply _step_inv in H as (_ & _ & -> & _). lra. }
  destruct h; cbn in Hc; try (by eapply Hstep).
  - injection Hc as <-. rewrite on_train_epoch_start_eq. cbn [best_acc]. lra.
  - by apply on_validation_epoch_end_inv in Hc as (_ & _ & _ & H).
  - injection Hc as <-. cbn. lra.
  - injection Hc as <-. cbn. lra.
Qed.

Lemma best_acc_run hp hs s s' :
  run hp hs s = Ok s' → (best_acc s <= best_acc s')%Q.
Proof.
  revert s. induction hs as [|h hs IH]; intros s Hr; cbn in Hr.
  - injection Hr as <-. lra.
  - destruct (call_hook hp h s) as [s1|] eqn:E; [|done].
    apply best_acc_call_hook in E. apply IH in Hr. lra.
Qed.

End Hooks.

Section Orchestration.
Import SlidingWindow.

Implicit Types (hp : hparams) (b : batch) (s : state) (m : metrics_dict).

Lemma sample_validated_state_configured (llo cs : bool) :
  configured (sample_validated_state llo cs).
Proof.
  apply (configured_call_hook (sample_hparams llo cs)
           (ValidationStep sample_batch 0) (sample_state llo cs)).
  - apply configured_setup.
  - destruct llo, cs; by vm_compute.
Qed.

Lemma split_keys_cases (k : string) :
  k ∈ split_keys →
  k = "train" ∨ (k ≠ "train" ∧ (k = "val" ∨ k = "test" ∨ k = "train_last_layer")).
Proof.
  unfold split_keys. intros Hk.
  repeat (apply elem_of_cons in Hk as [->|Hk]; [by auto|]).
  by apply elem_of_nil in Hk.
Qed.



(** C4: in a module the trainer has set up, [_step] calls the optimizer
    when [split_key] is ['train'] and only then.  On ['train'] it works on
    one optimizer of the pair, the warm one in a warm-up epoch of a module
    that is not last-layer-only and the main one otherwise: it writes the
    warm-up lr into every param group of that optimizer while
    [global_step < warmup_batches] and no learning rate otherwise, then
    calls [zero_grad], [manual_backward], [clip_grad_norm_] with
    [gradient_clipping] exactly when that is set, and [optimizer.step], in
    this order; the param groups of the other optimizer keep their
    settings.  On any other split it calls nothing, leaves the optimizers,
    the scheduler, [best_acc] and the trainer's counters as they are, and
    writes only the metrics of its own split. *)
Theorem optimizer_calls_only_in_train hp s split_key b :
  configured s → split_key ∈ split_keys →
  ∃ s' new,
    _step hp split_key b s = Ok s'
    ∧ calls s' = (calls s ++ new)%list
    ∧ (split_key = "train" →
         ∃ (which : optim_id) (opts opts' : optimizer * optimizer),
           optimizers s = Some opts
           ∧ optimizers s' = Some opts'
           ∧ (which = WarmOptim
              ↔ last_layer_only hp = false
                ∧ current_epoch s < num_warm_epochs hp)
           ∧ (gradient_clipping hp = None →
                optimizer_calls new =
                  [ZeroGrad which; ManualBackward (step_loss hp b);
                   OptimizerStep which])
           ∧ (∀ max_norm, gradient_clipping hp = Some max_norm →
                optimizer_calls new =
                  [ZeroGrad which; ManualBackward (step_loss hp b);
                   ClipGradNorm max_norm; OptimizerStep which])
           ∧ (let stepped :=
                match which with WarmOptim => opts.1 | MainOptim => opts.2 end in
              let stepped' :=
                match which with WarmOptim => opts'.1 | MainOptim => opts'.2 end in
              let other :=
                match which with WarmOptim => opts.2 | MainOptim => opts.1 end in
              let other' :=
                match which with WarmOptim => opts'.2 | MainOptim => opts'.1 end in
              param_groups other' = param_groups other
              ∧ defaults_lr other' = defaults_lr other
              ∧ defaults_lr stepped' = defaults_lr stepped
              ∧ params <$> param_groups stepped'
                = params <$> param_groups stepped
              ∧ weight_decay <$> param_groups stepped'
                = weight_decay <$> param_groups stepped
              ∧ (0 < warmup_batches hp → global_step s < warmup_batches hp →
                   Forall (fun pg =>
                             (lr pg
                              == inject_Z (global_step s + 1)
                                 / inject_Z (warmup_batches hp)
                                 * defaults_lr stepped)%Q)
                     (param_groups stepped'))
              ∧ (¬ (0 < warmup_batches hp
                    ∧ global_step s < warmup_batches hp) →
                   param_groups stepped' = param_groups stepped)))
    ∧ (split_key ≠ "train" →
         new = []
         ∧ optimizers s' = optimizers s
         ∧ lr_scheduler s' = lr_scheduler s
         ∧ best_acc s' = best_acc s
         ∧ current_epoch s' = current_epoch s
         ∧ global_step s' = global_step s
         ∧ ∀ other, other ≠ split_key →
             metrics s' !! other = metrics s !! other)
    ∧ (optimizer_calls new ≠ [] ↔ split_key = "train").
Proof.
  intros (Hkeys & [opts Hopts] & _) Hk. destruct (Hkeys _ Hk) as [m Hm].
  destruct (split_keys_cases _ Hk) as [->|[Hne _]].
  - rewrite (_step_train hp b s m opts Hm Hopts).
    eexists _, _. split; [reflexivity|]. split; [reflexivity|].
    assert (Hwhich : select_optimizer hp (current_epoch s) = WarmOptim
              ↔ last_layer_only hp = false
                ∧ current_epoch s < num_warm_epochs hp).
    { unfold select_optimizer. destruct (last_layer_only hp).
      - split; [done|]. by intros [? _].
      - destruct (Z.ltb_spec (current_epoch s) (num_warm_epochs hp)).
        + split; done.
        + split; [done|]. intros [_ ?]. lia. }
    assert (Hupd : ∀ o : optimizer,
      let o' := update_lr_warmup o (global_step s) (warmup_batches hp) in
      defaults_lr o' = defaults_lr o
      ∧ params <$> param_groups o' = params <$> param_groups o
      ∧ weight_decay <$> param_groups o' = weight_decay <$> param_groups o
      ∧ (0 < warmup_batches hp → global_step s < warmup_batches hp →
           Forall (fun pg =>
                     (lr pg
                      == inject_Z (global_step s + 1)
                         / inject_Z (warmup_batches hp) * defaults_lr o)%Q)
             (param_groups o'))
      ∧ (¬ (0 < warmup_batches hp ∧ global_step s < warmup_batches hp) →
           param_groups o' = param_groups o)).
    { intros o o'. unfold o'.
      destruct (decide (0 < warmup_batches hp
                        ∧ global_step s < warmup_batches hp)) as [[Hw Hg]|Hn].
      - rewrite (update_lr_warmup_active _ _ _ Hw Hg).
        cbn [param_groups defaults_lr]. split_and!.
        + done.
        + by rewrite <- list_fmap_compose.
        + by rewrite <- list_fmap_compose.
        + intros _ _. apply Forall_fmap, Forall_true. intros pg.
          cbn [lr set_lr compose].
          by rewrite (lr_scale_in_warmup _ _ Hw Hg).
        + intros Hn. by destruct Hn.
      - rewrite (update_lr_warmup_idle _ _ _ Hn). split_and!; try done.
        intros Hw Hg. by destruct Hn. }
    split_and!.
    + intros _.
      exists (select_optimizer hp (current_epoch s)), opts,
        (put_optimizer (select_optimizer hp (current_epoch s))
           (update_lr_warmup
              (get_optimizer (select_optimizer hp (current_epoch s)) opts)
              (global_step s) (warmup_batches hp)) opts).
      split; [done|]. split; [reflexivity|]. split; [exact Hwhich|].
      split; [|split].
      * intros Hg. unfold optimizer_calls, clip_calls. by rewrite Hg.
      * intros max_norm Hg. unfold optimizer_calls, clip_calls. by rewrite Hg.
      * destruct (select_optimizer hp (current_epoch s));
          cbn [put_optimizer get_optimizer fst snd]; cbv zeta.
        -- destruct (Hupd opts.1) as (H1 & H2 & H3 & H4 & H5).
           split_and!; done.
        -- destruct (Hupd opts.2) as (H1 & H2 & H3 & H4 & H5).
           split_and!; done.
    + done.
    + split; [done|]. intros _. unfold optimizer_calls, clip_calls.
      by destruct (gradient_clipping hp).
  - rewrite (_step_eval hp split_key b s m Hm Hne).
    exists (set_metrics (<[split_key := accumulate hp b m]> (metrics s)) s), [].
    split; [done|]. split; [by rewrite app_nil_r|].
    split_and!.
    + done.
    + intros _. split_and!; try done.
      intros other Ho. cbn [metrics set_metrics]. by rewrite lookup_insert_ne.
    + split; done.
Qed.

Lemma optimizer_calls_only_in_train_witness :
  configured (sample_state false true)
  ∧ "test" ∈ split_keys
  ∧ ∃ s' new,
      _step (sample_hparams false true) "test" sample_batch
        (sample_state false true) = Ok s'
      ∧ calls s' = (calls (sample_state false true) ++ new)%list.
Proof.
  assert (Hk : "test" ∈ split_keys).
  { unfold split_keys. do 2 (apply elem_of_cons; right).
    apply elem_of_cons. by left. }
  split; [apply configured_setup|]. split; [exact Hk|].
  destruct (optimizer_calls_only_in_train (sample_hparams false true)
              (sample_state false true) "test" sample_batch
              (configured_setup _ _) Hk) as (s' & new & Hs & Hc & _).
  by exists s', new.
Defined.

Lemma phase_calls_train_epoch_start hp (epoch : Z) :
  phase_calls (train_epoch_start_calls hp epoch) =
    [if last_layer_only hp then LastOnly
     else if epoch <? num_warm_epochs hp then WarmOnly else Joint].
Proof.
  unfold train_epoch_start_calls, phase_calls.
  destruct (last_layer_only hp); [done|].
  destruct (epoch =? 0), (epoch <? num_warm_epochs hp); try done;
    by destruct (epoch =? num_warm_epochs hp).
Qed.

Lemma stepped_optimizers_train hp b (which : optim_id) (l1 l2 : option Q) :
  stepped_optimizers
    ([ZeroGrad which; ManualBackward (step_loss hp b)]
     ++ clip_calls hp
     ++ [OptimizerStep which; SelfLog "train_loss_step" l1; SelfLog "lr" l2])%list
  = [which].
Proof. unfold clip_calls. by destruct (gradient_clipping hp). Qed.

Lemma select_optimizer_warm hp (epoch : Z) :
  last_layer_only hp = false → epoch < num_warm_epochs hp →
  select_optimizer hp epoch = WarmOptim.
Proof.
  intros Hl He. unfold select_optimizer. rewrite Hl.
  by rewrite (proj2 (Z.ltb_lt _ _) He).
Qed.

Lemma select_optimizer_joint hp (epoch : Z) :
  last_layer_only hp = false → num_warm_epochs hp ≤ epoch →
  select_optimizer hp epoch = MainOptim.
Proof.
  intros Hl He. unfold select_optimizer. rewrite Hl.
  by rewrite (proj2 (Z.ltb_ge _ _) He).
Qed.

Lemma select_optimizer_last hp (epoch : Z) :
  last_layer_only hp = true → select_optimizer hp epoch = MainOptim.
Proof. intros Hl. unfold select_optimizer. by rewrite Hl. Qed.

(** C2: with [last_layer_only = False], [on_train_epoch_start] calls
    [warm_only] in every epoch below [num_warm_epochs] and [joint] in every
    epoch from [num_warm_epochs] on, and the training step steps the warm
    optimizer in the former and the main optimizer in the latter, so that
    warm-up is never re-entered once joint training has begun; with
    [last_layer_only = True], [on_train_epoch_start] calls [last_only] and
    the training step steps the main optimizer, which
    [configure_optimizers] then builds over the last layer alone. *)
Theorem phase_schedule (adam_default_lr : Q) hp s b (batch_idx : Z) :
  configured s →
  let epoch := current_epoch s in
  (∃ new : list call,
     calls (on_train_epoch_start hp s) = (calls s ++ new)%list
     ∧ (last_layer_only hp = false → epoch < num_warm_epochs hp →
          phase_calls new = [WarmOnly])
     ∧ (last_layer_only hp = false → num_warm_epochs hp ≤ epoch →
          phase_calls new = [Joint])
     ∧ (last_layer_only hp = true → phase_calls new = [LastOnly]))
  ∧ (∃ s' (new : list call),
       training_step hp b batch_idx s = Ok s'
       ∧ calls s' = (calls s ++ new)%list
       ∧ (last_layer_only hp = false → epoch < num_warm_epochs hp →
            stepped_optimizers new = [WarmOptim])
       ∧ (last_layer_only hp = false → num_warm_epochs hp ≤ epoch →
            stepped_optimizers new = [MainOptim])
       ∧ (last_layer_only hp = true → stepped_optimizers new = [MainOptim]))
  ∧ (∀ later, epoch ≤ later →
       select_optimizer hp epoch = MainOptim →
       select_optimizer hp later = MainOptim)
  ∧ (let warm_main := (configure_optimizers adam_default_lr hp s).2 in
     params <$> param_groups warm_main.1
       = ["add_on_layers"; "prototype_vectors"]
     ∧ (last_layer_only hp = false →
          params <$> param_groups warm_main.2
            = ["features"; "add_on_layers"; "prototype_vectors"])
     ∧ (last_layer_only hp = true →
          param_groups warm_main.2
            = [ {| params := "last_layer";
                   lr := last_layer_optimizer_lr hp;
                   weight_decay := None |} ])).
Proof.
  intros (Hkeys & [opts Hopts] & _) epoch. split_and!.
  - exists (train_epoch_start_calls hp epoch).
    rewrite on_train_epoch_start_eq. cbn [calls]. split; [done|].
    rewrite phase_calls_train_epoch_start. split_and!.
    + intros -> He. by rewrite (proj2 (Z.ltb_lt _ _) He).
    + intros -> He. by rewrite (proj2 (Z.ltb_ge _ _) He).
    + by intros ->.
  - destruct (Hkeys "train") as [m Hm].
    { unfold split_keys. apply elem_of_cons. by left. }
    unfold training_step. rewrite (_step_train hp b s m opts Hm Hopts).
    eexists _, _. split; [reflexivity|]. split; [reflexivity|].
    rewrite stepped_optimizers_train. fold epoch. split_and!.
    + intros Hl He. by rewrite select_optimizer_warm.
    + intros Hl He. by rewrite select_optimizer_joint.
    + intros Hl. by rewrite select_optimizer_last.
  - intros later Hle. unfold select_optimizer.
    destruct (last_layer_only hp); [done|].
    destruct (epoch <? num_warm_epochs hp) eqn:E; [done|].
    intros _. apply Z.ltb_ge in E.
    by rewrite (proj2 (Z.ltb_ge later (num_warm_epochs hp))) by lia.
  - cbn. split_and!; [done| |]; unfold main_optimizer_specs; by intros ->.
Qed.

Lemma phase_schedule_witness :
  configured (sample_state false true)
  ∧ ∃ new : list call,
      calls (on_train_epoch_start (sample_hparams false true)
               (sample_state false true))
        = (calls (sample_state false true) ++ new)%list
      ∧ phase_calls new = [WarmOnly].
Proof.
  split; [apply configured_setup|].
  destruct (phase_schedule (1 # 1000) (sample_hparams false true)
              (sample_state false true) sample_batch 0
              (configured_setup _ _)) as ((new & Hc & Hwarm & _) & _).
  exists new. split; [exact Hc|]. apply Hwarm; [reflexivity|by vm_compute].
Defined.

Lemma saved_validation_end_calls hp (epoch : Z) (best val_acc val_loss : Q) :
  saved (validation_end_calls hp epoch best val_acc val_loss) =
    ((if Qlt_bool best val_acc
      then [(stage_key hp epoch +:+ "_best", val_acc)] else [])
     ++ [(stage_key hp epoch +:+ "_last", val_acc)])%list.
Proof.
  unfold validation_end_calls, saved.
  destruct (last_layer_only hp); [|destruct (epoch <? num_warm_epochs hp)];
    by destruct (Qlt_bool best val_acc).
Qed.

(** C3: when the validation metrics hold at least one batch,
    [on_validation_epoch_end] calls [save_model_w_condition] for
    ['<stage>_best'] exactly when the validation accuracy is strictly
    above [best_acc], and then sets [best_acc] to that accuracy; in either
    case it calls [save_model_w_condition] for ['<stage>_last'].  So
    [best_acc] does not go down over the hook, nor over anything the
    trainer runs afterwards. *)
Theorem checkpoint_on_validation_epoch_end hp s m :
  configured s → metrics s !! "val" = Some m →
  n_examples m ≠ 0 → n_batches m ≠ 0 →
  let val_acc := (inject_Z (n_correct m) / inject_Z (n_examples m))%Q in
  let stage := stage_key hp (current_epoch s) in
  ∃ s' (new : list call),
    on_validation_epoch_end hp s = Ok s'
    ∧ calls s' = (calls s ++ new)%list
    ∧ ((best_acc s < val_acc)%Q →
         saved new = [(stage +:+ "_best", val_acc); (stage +:+ "_last", val_acc)]
         ∧ best_acc s' = val_acc)
    ∧ (¬ (best_acc s < val_acc)%Q →
         saved new = [(stage +:+ "_last", val_acc)]
         ∧ best_acc s' = best_acc s)
    ∧ (best_acc s <= best_acc s')%Q
    ∧ (∀ hs s'', run hp hs s' = Ok s'' → (best_acc s' <= best_acc s'')%Q).
Proof.
  intros (_ & _ & Hsch) Hm He Hb val_acc stage.
  pose proof (on_validation_epoch_end_ok hp s m Hm He Hb Hsch) as Hok.
  cbv zeta in Hok. fold val_acc in Hok.
  eexists _, _. split; [exact Hok|]. split; [reflexivity|].
  cbn [best_acc]. rewrite saved_validation_end_calls. fold stage.
  pose proof (Qlt_bool_iff (best_acc s) val_acc) as Hlt.
  destruct (Qlt_bool (best_acc s) val_acc); split_and!.
  - intros _. split; done.
  - intros Hn. exfalso. apply Hn, Hlt. done.
  - assert (best_acc s < val_acc)%Q by (by apply Hlt). lra.
  - intros hs s''. apply best_acc_run.
  - intros H. apply Hlt in H. done.
  - intros _. split; done.
  - lra.
  - intros hs s''. apply best_acc_run.
Qed.

Lemma checkpoint_on_validation_epoch_end_witness :
  configured (sample_validated_state false true)
  ∧ ∃ s', on_validation_epoch_end (sample_hparams false true)
            (sample_validated_state false true) = Ok s'
          ∧ best_acc s' = (inject_Z 3 / inject_Z 4)%Q.
Proof.
  split; [apply sample_validated_state_configured|].
  destruct (checkpoint_on_validation_epoch_end (sample_hparams false true)
              (sample_validated_state false true)
              (accumulate (sample_hparams false true) sample_batch reset_metrics)
              (sample_validated_state_configured false true))
    as (s' & new & Hs & _ & Hbest & _).
  - by vm_compute.
  - by vm_compute.
  - by vm_compute.
  - exists s'. split; [exact Hs|]. apply Hbest. by vm_compute.
Defined.

End Orchestration.

(** * Further properties of the data module *)

Section DataModuleLoaders.
Import Segmentation.

Implicit Types (self : PatchClassificationDataModule).
Implicit Types (ds : PatchClassificationDataset).
Implicit Types (kwargs : gmap string pyval).

Lemma repeated_keyword_None kwargs :
  repeated_keyword kwargs = None
  ↔ ∀ k, k ∈ explicit_keywords → kwargs !! k = None.
Proof.
  unfold repeated_keyword. split.
  - intros H k Hk.
    destruct (list_find _ explicit_keywords) as [[i x]|] eqn:E; [done|].
    apply list_find_None in E. rewrite Forall_forall in E.
    apply eq_None_not_Some, E, Hk.
  - intros H.
    destruct (list_find _ explicit_keywords) as [[i x]|] eqn:E; [|done].
    apply list_find_Some in E as (Hx & [v Hv] & _).
    apply list_elem_of_lookup_2 in Hx. rewrite (H _ Hx) in Hv. done.
Qed.

Lemma repeated_keyword_Some kwargs k :
  repeated_keyword kwargs = Some k →
  k ∈ explicit_keywords ∧ is_Some (kwargs !! k).
Proof.
  unfold repeated_keyword.
  destruct (list_find _ explicit_keywords) as [[i x]|] eqn:E; [|done].
  intros [= <-]. apply list_find_Some in E as (Hx & Hv & _).
  split; [by eapply list_elem_of_lookup_2|done].
Qed.

(** The keywords written out at the call site cannot be overridden
    through [**kwargs]: when [kwargs] carries [dataset], [shuffle] or
    [num_workers], Python rejects the repeated keyword, so
    [get_data_loader] and each of the four dataloader methods raise
    [TypeError] and no [DataLoader] is built. *)
Theorem repeated_keyword_raises_type_error self ds kwargs (k : string) :
  k ∈ explicit_keywords → is_Some (kwargs !! k) →
  ∃ k', k' ∈ explicit_keywords
        ∧ is_Some (kwargs !! k')
        ∧ get_data_loader self ds kwargs = Raise (TypeError k')
        ∧ ∀ meth, call_loader meth self kwargs = Raise (TypeError k').
Proof.
  intros Hk Hs.
  destruct (repeated_keyword kwargs) as [k'|] eqn:E.
  - destruct (repeated_keyword_Some _ _ E) as [Hk' Hs'].
    exists k'. split; [done|]. split; [done|].
    split; [by apply get_data_loader_raise|].
    intros meth. destruct meth; cbn [call_loader];
      unfold train_dataloader, val_dataloader, test_dataloader,
        train_push_dataloader;
      by apply get_data_loader_raise.
  - rewrite repeated_keyword_None in E. rewrite (E _ Hk) in Hs.
    by destruct Hs.
Qed.

Lemma repeated_keyword_raises_type_error_witness :
  ∃ k', train_dataloader (__init__ 8 513 4 1) {[ "shuffle" := PyBool false ]}
        = Raise (TypeError k').
Proof.
  destruct (repeated_keyword_raises_type_error (__init__ 8 513 4 1)
              {| split_key := "train"; is_eval := false;
                 ds_model_image_size := 513;
                 push_prototypes := None; length_multiplier := None |}
              {[ "shuffle" := PyBool false ]} "shuffle")
    as (k' & _ & _ & _ & Hall).
  - unfold explicit_keywords. apply elem_of_cons. right.
    apply elem_of_cons. by left.
  - eexists. by vm_compute.
  - exists k'. apply (Hall TrainDataloader).
Defined.

(** The datasets behind the four dataloaders: each gets the
    [model_image_size] of the constructor; only the train-push dataset
    asks for [push_prototypes] and a [length_multiplier], which is the
    constructor's [push_length_multiplier]; and no dataloader ever reads a
    split other than ['train'] or ['val']. *)
Theorem loader_dataset_arguments
    (cpu_count image_size n_jobs multiplier : Z) (meth : loader_method)
    kwargs :
  repeated_keyword kwargs = None →
  ∃ dl,
    call_loader meth (__init__ cpu_count image_size n_jobs multiplier) kwargs
      = Ok dl
    ∧ ds_model_image_size (dataset dl) = image_size
    ∧ (split_key (dataset dl) = "train" ∨ split_key (dataset dl) = "val")
    ∧ (split_key (dataset dl) = "train"
       ↔ meth = TrainDataloader ∨ meth = TrainPushDataloader)
    ∧ (meth = TrainPushDataloader →
         push_prototypes (dataset dl) = Some true
         ∧ length_multiplier (dataset dl) = Some multiplier)
    ∧ (meth ≠ TrainPushDataloader →
         push_prototypes (dataset dl) = None
         ∧ length_multiplier (dataset dl) = None).
Proof.
  intros H.
  destruct meth; cbn [call_loader];
    unfold train_dataloader, val_dataloader, test_dataloader,
      train_push_dataloader;
    rewrite (get_data_loader_ok _ _ _ H); eexists; (split; [reflexivity|]);
    cbn; split_and!; try done; auto;
    try (split; [done|intros [?|?]; done]);
    split; auto.
Qed.

Lemma loader_dataset_arguments_witness :
  repeated_keyword {[ "batch_size" := PyInt 4 ]} = None
  ∧ ∃ dl, call_loader TrainPushDataloader (__init__ 8 513 4 3)
            {[ "batch_size" := PyInt 4 ]} = Ok dl
          ∧ length_multiplier (dataset dl) = Some 3.
Proof.
  split; [by vm_compute|].
  destruct (loader_dataset_arguments 8 513 4 3 TrainPushDataloader
              {[ "batch_size" := PyInt 4 ]}) as (dl & Hdl & _ & _ & _ & Hp & _).
  - by vm_compute.
  - exists dl. split; [exact Hdl|]. by apply Hp.
Defined.

End DataModuleLoaders.


(** * Further properties of the training module *)

Section Accumulation.
Import SlidingWindow.

Implicit Types (hp : hparams) (b : batch) (s : state) (m : metrics_dict).
Implicit Types (bs : list (batch * Z)).

Lemma run_app hp (hs1 hs2 : list hook) s :
  run hp (hs1 ++ hs2) s = run hp hs1 s ≫= run hp hs2.
Proof.
  revert s. induction hs1 as [|h hs1 IH]; intros s; [done|].
  cbn [app run]. destruct (call_hook hp h s) as [s1|]; [|done]. apply IH.
Qed.

Lemma set_metrics_id s : set_metrics (metrics s) s = s.
Proof. by destruct s. Qed.

(** Steps on two different evaluation splits can be taken in either
    order: both orders succeed and end in the same state. *)
Theorem eval_steps_commute hp (k1 k2 : string) (b1 b2 : batch) s :
  is_Some (metrics s !! k1) → is_Some (metrics s !! k2) →
  k1 ≠ "train" → k2 ≠ "train" → k1 ≠ k2 →
  ∃ s', (_step hp k1 b1 s ≫= _step hp k2 b2) = Ok s'
        ∧ (_step hp k2 b2 s ≫= _step hp k1 b1) = Ok s'.
Proof.
  intros [m1 H1] [m2 H2] Ht1 Ht2 Hne.
  rewrite (_step_eval hp k1 b1 s m1 H1 Ht1), (_step_eval hp k2 b2 s m2 H2 Ht2).
  unfold mbind, result_bind.
  rewrite (_step_eval hp k2 b2 _ m2), (_step_eval hp k1 b1 _ m1); try done.
  - eexists. split; [reflexivity|].
    unfold set_metrics; cbn [metrics lr_scheduler best_acc current_epoch
                             global_step optimizers calls].
    do 2 f_equal. by apply insert_insert_ne.
  - cbn [metrics set_metrics]. by rewrite lookup_insert_ne.
  - cbn [metrics set_metrics]. by rewrite lookup_insert_ne.
Qed.

Lemma eval_steps_commute_witness :
  ∃ s', (_step (sample_hparams false true) "val" sample_batch
           (sample_state false true)
         ≫= _step (sample_hparams false true) "test" sample_batch) = Ok s'
        ∧ (_step (sample_hparams false true) "test" sample_batch
             (sample_state false true)
           ≫= _step (sample_hparams false true) "val" sample_batch) = Ok s'.
Proof.
  apply (eval_steps_commute (sample_hparams false true) "val" "test"
           sample_batch sample_batch (sample_state false true));
    try done; eexists; by vm_compute.
Defined.

(** The metrics after a run of validation batches. *)
Lemma run_validation_steps hp bs s m :
  metrics s !! "val" = Some m →
  run hp (validation_steps bs) s =
    Ok (set_metrics
          (<["val" := foldl (fun m p => accumulate hp p.1 m) m bs]> (metrics s))
          s).
Proof.
  revert s m. induction bs as [|[b i] bs IH]; intros s m Hm.
  - cbn. by rewrite insert_id, set_metrics_id.
  - cbn [validation_steps fmap list_fmap run call_hook fst snd].
    unfold validation_step.
    rewrite (_step_eval hp "val" b s m Hm) by done.
    unfold mbind, result_bind.
    fold (validation_steps bs).
    rewrite (IH _ (accumulate hp b m)).
    + cbn [foldl fst metrics set_metrics].
      unfold set_metrics; cbn [metrics lr_scheduler best_acc current_epoch
                               global_step optimizers calls].
      by rewrite insert_insert_eq.
    + cbn [metrics set_metrics]. by rewrite lookup_insert_eq.
Qed.

Lemma foldl_accumulate hp bs m :
  let m' := foldl (fun m p => accumulate hp p.1 m) m bs in
  n_batches m' = n_batches m + Z.of_nat (length bs)
  ∧ n_examples m' = n_examples m + sum_Z target_size bs.*1
  ∧ n_correct m' = n_correct m + sum_Z n_hits bs.*1
  ∧ (cross_entropy m' == cross_entropy m + sum_Q crs_ent bs.*1)%Q
  ∧ (cluster_cost m'
     == cluster_cost m + sum_Q (step_cluster_cost hp) bs.*1)%Q
  ∧ (loss m' == loss m + sum_Q (step_loss hp) bs.*1)%Q.
Proof.
  revert m. induction bs as [|[b i] bs IH]; intros m; cbn zeta.
  - cbn. split_and!; try lia; ring.
  - cbn [foldl fst fmap list_fmap sum_Z sum_Q foldr length].
    destruct (IH (accumulate hp b m)) as (H1 & H2 & H3 & H4 & H5 & H6).
    cbn zeta in *.
    fold (sum_Z target_size bs.*1) (sum_Z n_hits bs.*1)
      (sum_Q crs_ent bs.*1) (sum_Q (step_cluster_cost hp) bs.*1)
      (sum_Q (step_loss hp) bs.*1).
    rewrite H1, H2, H3, H4, H5, H6. cbn [accumulate n_batches n_examples
      n_correct cross_entropy cluster_cost loss].
    split_and!; try lia; ring.
Qed.



Lemma saved_train_epoch_start_calls hp (epoch : Z) :
  saved (train_epoch_start_calls hp epoch) = [].
Proof.
  unfold train_epoch_start_calls, saved.
  destruct (last_layer_only hp); [done|].
  destruct (epoch =? 0), (epoch <? num_warm_epochs hp); try done;
    by destruct (epoch =? num_warm_epochs hp).
Qed.

Lemma saved_app (cs1 cs2 : list call) :
  saved (cs1 ++ cs2) = (saved cs1 ++ saved cs2)%list.
Proof. apply omap_app. Qed.

(** One epoch of validation: after [on_train_epoch_start] and the
    validation batches, the accuracy [on_validation_epoch_end] compares
    with [best_acc] and hands to [save_model_w_condition] is the number of
    correct predictions of all batches over the number of examples of all
    batches (not a mean of per-batch accuracies). *)
Theorem validation_accuracy_is_pooled hp bs s :
  configured s → bs ≠ [] → sum_Z target_size bs.*1 ≠ 0 →
  let val_acc :=
    (inject_Z (sum_Z n_hits bs.*1) / inject_Z (sum_Z target_size bs.*1))%Q in
  let stage := stage_key hp (current_epoch s) in
  ∃ s' (new : list call),
    run hp (OnTrainEpochStart :: validation_steps bs ++ [OnValidationEpochEnd]) s
      = Ok s'
    ∧ calls s' = (calls s ++ new)%list
    ∧ ((best_acc s < val_acc)%Q →
         saved new = [(stage +:+ "_best", val_acc); (stage +:+ "_last", val_acc)]
         ∧ best_acc s' = val_acc)
    ∧ (¬ (best_acc s < val_acc)%Q →
         saved new = [(stage +:+ "_last", val_acc)]
         ∧ best_acc s' = best_acc s).
Proof.
  intros (Hkeys & Hopts & Hsch) Hbs Hsize val_acc stage.
  destruct (Hkeys "val") as [m0 Hm0].
  { unfold split_keys. apply elem_of_cons. right. apply elem_of_cons. by left. }
  cbn [run call_hook]. unfold mbind at 1, result_bind at 1.
  rewrite run_app, on_train_epoch_start_eq.
  set (s1 := {| metrics := (fun _ => reset_metrics) <$> metrics s;
                lr_scheduler := lr_scheduler s; best_acc := best_acc s;
                current_epoch := current_epoch s;
                global_step := global_step s; optimizers := optimizers s;
                calls := calls s
                  ++ train_epoch_start_calls hp (current_epoch s) |}).
  assert (Hm1 : metrics s1 !! "val" = Some reset_metrics).
  { cbn [s1 metrics]. by rewrite lookup_fmap, Hm0. }
  rewrite (run_validation_steps hp bs s1 reset_metrics Hm1).
  unfold mbind at 1, result_bind at 1. cbn [run call_hook].
  set (m2 := foldl (fun m p => accumulate hp p.1 m) reset_metrics bs).
  set (s2 := set_metrics (<["val" := m2]> (metrics s1)) s1).
  destruct (foldl_accumulate hp bs reset_metrics) as (H1 & H2 & H3 & _).
  cbn zeta in H1, H2, H3. fold m2 in H1, H2, H3.
  cbn [reset_metrics n_batches n_examples n_correct] in H1, H2, H3.
  rewrite Z.add_0_l in H1, H2, H3.
  assert (Hm2 : metrics s2 !! "val" = Some m2).
  { cbn [s2 metrics set_metrics]. by rewrite lookup_insert_eq. }
  assert (He : n_examples m2 ≠ 0) by (by rewrite H2).
  assert (Hb : n_batches m2 ≠ 0).
  { rewrite H1. destruct bs; [done|]. cbn [length]. lia. }
  pose proof (on_validation_epoch_end_ok hp s2 m2 Hm2 He Hb Hsch) as Hok.
  cbv zeta in Hok. rewrite H2, H3 in Hok. fold val_acc in Hok.
  rewrite Hok. unfold mbind, result_bind.
  eexists _, _. split; [reflexivity|].
  cbn [calls s2 s1 set_metrics best_acc current_epoch].
  split; [by rewrite <- app_assoc|].
  rewrite saved_app, saved_train_epoch_start_calls, app_nil_l.
  rewrite saved_validation_end_calls. fold stage.
  pose proof (Qlt_bool_iff (best_acc s) val_acc) as Hlt.
  destruct (Qlt_bool (best_acc s) val_acc); split.
  - intros _. split; done.
  - intros Hn. exfalso. apply Hn, Hlt. done.
  - intros H. apply Hlt in H. done.
  - intros _. split; done.
Qed.

Lemma validation_accuracy_is_pooled_witness :
  configured (sample_state false true)
  ∧ ∃ s', run (sample_hparams false true)
            (OnTrainEpochStart
             :: validation_steps [(sample_batch, 0); (sample_batch, 1)]
             ++ [OnValidationEpochEnd])
            (sample_state false true) = Ok s'
          ∧ best_acc s' = (inject_Z 6 / inject_Z 8)%Q.
Proof.
  split; [apply configured_setup|].
  destruct (validation_accuracy_is_pooled (sample_hparams false true)
              [(sample_batch, 0); (sample_batch, 1)] (sample_state false true)
              (configured_setup _ _))
    as (s' & new & Hr & _ & Hbest & _).
  - done.
  - by vm_compute.
  - exists s'. split; [exact Hr|]. apply Hbest. by vm_compute.
Defined.

(** Straight after [on_train_epoch_start] the counters are zero, so an
    epoch-end hook that runs before any batch of its split divides by
    zero: [on_validation_epoch_end] and [_epoch_end] on every split raise
    [ZeroDivisionError]. *)
Theorem epoch_end_right_after_reset_raises hp s (l1 p_avg_pair_dist : Q) :
  configured s →
  on_validation_epoch_end hp (on_train_epoch_start hp s)
    = Raise ZeroDivisionError
  ∧ ∀ split_key, split_key ∈ split_keys →
      _epoch_end split_key l1 p_avg_pair_dist (on_train_epoch_start hp s)
        = Raise ZeroDivisionError.
Proof.
  intros (Hkeys & _ & _).
  assert (Hreset : ∀ k, k ∈ split_keys →
            metrics (on_train_epoch_start hp s) !! k = Some reset_metrics).
  { intros k Hk. destruct (Hkeys _ Hk) as [m Hm].
    rewrite on_train_epoch_start_eq. cbn [metrics].
    by rewrite lookup_fmap, Hm. }
  split.
  - apply (on_validation_epoch_end_no_examples hp _ reset_metrics); [|done].
    apply Hreset. unfold split_keys. apply elem_of_cons. right.
    apply elem_of_cons. by left.
  - intros k Hk. unfold _epoch_end. by rewrite (Hreset _ Hk).
Qed.

Lemma epoch_end_right_after_reset_raises_witness :
  configured (sample_state false true)
  ∧ on_validation_epoch_end (sample_hparams false true)
      (on_train_epoch_start (sample_hparams false true)
         (sample_state false true))
    = Raise ZeroDivisionError.
Proof.
  split; [apply configured_setup|].
  apply (epoch_end_right_after_reset_raises (sample_hparams false true)
           (sample_state false true) 0 0 (configured_setup _ _)).
Defined.

End Accumulation.

Section ValidationEnd.
Import SlidingWindow.

Implicit Types (hp : hparams) (b : batch) (s : state) (m : metrics_dict).

Lemma scheduler_steps_validation_end_calls hp (epoch : Z)
    (best val_acc val_loss : Q) :
  scheduler_steps (validation_end_calls hp epoch best val_acc val_loss) =
    if last_layer_only hp then [val_acc]
    else if epoch <? num_warm_epochs hp then [] else [val_acc].
Proof.
  unfold validation_end_calls, scheduler_steps.
  destruct (last_layer_only hp); [|destruct (epoch <? num_warm_epochs hp)];
    by destruct (Qlt_bool best val_acc).
Qed.

Lemma self_logged_validation_end_calls hp (epoch : Z)
    (best val_acc val_loss : Q) :
  self_logged (validation_end_calls hp epoch best val_acc val_loss) =
    [("training_stage",
      Some (if last_layer_only hp then 2%Q
            else if epoch <? num_warm_epochs hp then 0%Q else 1%Q))].
Proof.
  unfold validation_end_calls, self_logged.
  destruct (last_layer_only hp); [|destruct (epoch <? num_warm_epochs hp)];
    by destruct (Qlt_bool best val_acc).
Qed.

(** [on_validation_epoch_end] steps the plateau scheduler once, with the
    validation accuracy, in the joint and the last-layer stages and not at
    all during warm-up; the stage is logged as [0.0] (warm-up), [1.0]
    (joint) or [2.0] (last layer) and names the checkpoint ['warmup'],
    ['nopush'] or ['push']. *)
Theorem scheduler_stepped_outside_warmup hp s m :
  metrics s !! "val" = Some m →
  n_examples m ≠ 0 → n_batches m ≠ 0 → is_Some (lr_scheduler s) →
  let val_acc := (inject_Z (n_correct m) / inject_Z (n_examples m))%Q in
  let epoch := current_epoch s in
  ∃ s' (new : list call),
    on_validation_epoch_end hp s = Ok s'
    ∧ calls s' = (calls s ++ new)%list
    ∧ (last_layer_only hp = false → epoch < num_warm_epochs hp →
         scheduler_steps new = []
         ∧ self_logged new = [("training_stage", Some 0%Q)]
         ∧ stage_key hp epoch = "warmup")
    ∧ (last_layer_only hp = false → num_warm_epochs hp ≤ epoch →
         scheduler_steps new = [val_acc]
         ∧ self_logged new = [("training_stage", Some 1%Q)]
         ∧ stage_key hp epoch = "nopush")
    ∧ (last_layer_only hp = true →
         scheduler_steps new = [val_acc]
         ∧ self_logged new = [("training_stage", Some 2%Q)]
         ∧ stage_key hp epoch = "push").
Proof.
  intros Hm He Hb Hsch val_acc epoch.
  pose proof (on_validation_epoch_end_ok hp s m Hm He Hb Hsch) as Hok.
  cbv zeta in Hok. fold val_acc in Hok.
  eexists _, _. split; [exact Hok|]. split; [reflexivity|].
  rewrite scheduler_steps_validation_end_calls,
    self_logged_validation_end_calls.
  unfold stage_key. fold epoch. split_and!.
  - intros -> Hw. by rewrite (proj2 (Z.ltb_lt _ _) Hw).
  - intros -> Hw. by rewrite (proj2 (Z.ltb_ge _ _) Hw).
  - by intros ->.
Qed.

Lemma scheduler_stepped_outside_warmup_witness :
  ∃ s' (new : list call),
    on_validation_epoch_end (sample_hparams true true)
      (sample_validated_state true true) = Ok s'
    ∧ calls s' = (calls (sample_validated_state true true) ++ new)%list
    ∧ scheduler_steps new = [(inject_Z 3 / inject_Z 4)%Q].
Proof.
  destruct (scheduler_stepped_outside_warmup (sample_hparams true true)
              (sample_validated_state true true)
              (accumulate (sample_hparams true true) sample_batch reset_metrics))
    as (s' & new & Hs & Hc & _ & _ & Hlast).
  - by vm_compute.
  - by vm_compute.
  - by vm_compute.
  - eexists. by vm_compute.
  - exists s', new. split; [exact Hs|]. split; [exact Hc|].
    by apply Hlast.
Defined.

(** Before [configure_optimizers] has built the scheduler,
    [on_validation_epoch_end] still works in a warm-up epoch, which does
    not touch the scheduler, and fails with [AttributeError] in every
    other stage, before any checkpoint is saved. *)
Theorem validation_end_without_scheduler hp s m :
  metrics s !! "val" = Some m →
  n_examples m ≠ 0 → n_batches m ≠ 0 → lr_scheduler s = None →
  (last_layer_only hp = false → current_epoch s < num_warm_epochs hp →
     ∃ s', on_validation_epoch_end hp s = Ok s' ∧ lr_scheduler s' = None)
  ∧ (last_layer_only hp = true ∨ num_warm_epochs hp ≤ current_epoch s →
       ∃ msg, on_validation_epoch_end hp s = Raise (AttributeError msg)).
Proof.
  intros Hm He Hb Hs.
  assert (Hpre : ∀ R (k : Q → Q → result R),
    (val_acc ← truediv (inject_Z (n_correct m)) (inject_Z (n_examples m));
     val_loss ← truediv (loss m) (inject_Z (n_batches m));
     k val_acc val_loss)
    = k (inject_Z (n_correct m) / inject_Z (n_examples m))%Q
        (loss m / inject_Z (n_batches m))%Q).
  { intros R k. by rewrite (truediv_ok _ _ He), (truediv_ok _ _ Hb). }
  split.
  - intros Hl Hw. unfold on_validation_epoch_end. rewrite Hm.
    rewrite Hpre. rewrite Hl, (proj2 (Z.ltb_lt _ _) Hw).
    unfold mbind, result_bind.
    destruct (Qlt_bool _ _); eexists; (split; [reflexivity|]); done.
  - intros Hcase. unfold on_validation_epoch_end. rewrite Hm.
    rewrite Hpre. unfold scheduler_step, mbind, result_bind.
    destruct (last_layer_only hp) eqn:Hl.
    + cbn [lr_scheduler emit]. rewrite Hs. by eexists.
    + destruct Hcase as [?|Hw]; [done|].
      rewrite (proj2 (Z.ltb_ge _ _) Hw). cbn [lr_scheduler emit].
      rewrite Hs. by eexists.
Qed.

Lemma validation_end_without_scheduler_witness :
  ∃ msg,
    on_validation_epoch_end (sample_hparams true true)
      (set_lr_scheduler None (sample_validated_state true true))
    = Raise (AttributeError msg).
Proof.
  apply (validation_end_without_scheduler (sample_hparams true true)
           (set_lr_scheduler None (sample_validated_state true true))
           (accumulate (sample_hparams true true) sample_batch reset_metrics));
    try (by vm_compute).
  by left.
Defined.

End ValidationEnd.

Section RunInvariants.
Import SlidingWindow.

Implicit Types (hp : hparams) (b : batch) (s : state) (m : metrics_dict).
Implicit Types (h : hook) (hs : list hook).

(** What one hook can do to the metrics. *)
Lemma call_hook_metrics hp h s s' :
  call_hook hp h s = Ok s' →
  metrics s' = metrics s
  ∨ (∃ k b m, metrics s !! k = Some m
       ∧ metrics s' = <[k := accumulate hp b m]> (metrics s)
       ∧ (plausible_hook h → plausible_batch b))
  ∨ metrics s' = (fun _ => reset_metrics) <$> metrics s.
Proof.
  intros Hc.
  assert (Hstep : ∀ k b, (plausible_hook h → plausible_batch b) →
            _step hp k b s = Ok s' →
            ∃ k b m, metrics s !! k = Some m
              ∧ metrics s' = <[k := accumulate hp b m]> (metrics s)
              ∧ (plausible_hook h → plausible_batch b)).
  { intros k b Hp H. apply _step_inv in H as ((m & Hm & Hms) & _).
    by exists k, b, m. }
  destruct h; cbn in Hc.
  - right. left. by eapply Hstep.
  - right. left. by eapply Hstep.
  - right. left. by eapply Hstep.
  - right. right. injection Hc as <-. by rewrite on_train_epoch_start_eq.
  - left. by apply on_validation_epoch_end_inv in Hc as (Hm & _).
  - left. by injection Hc as <-.
  - left. by injection Hc as <-.
Qed.

Lemma run_invariant hp (P : state → Prop) (Q : hook → Prop) :
  (∀ h s s', Q h → P s → call_hook hp h s = Ok s' → P s') →
  ∀ hs s s', Forall Q hs → P s → run hp hs s = Ok s' → P s'.
Proof.
  intros Hstep hs. induction hs as [|h hs IH]; intros s s' HQ HP Hr.
  - cbn in Hr. by injection Hr as <-.
  - apply Forall_cons in HQ as [Hh HQ]. cbn in Hr.
    destruct (call_hook hp h s) as [s1|] eqn:E; [|done].
    eapply IH; [done| |exact Hr]. by eapply Hstep.
Qed.

(** The module never adds or drops a metrics split: whatever hooks run,
    the keys of [self.metrics] stay the ones it had. *)
Theorem metrics_splits_fixed hp hs s s' :
  run hp hs s = Ok s' → dom (metrics s') = dom (metrics s).
Proof.
  intros Hr.
  apply (run_invariant hp (fun t => dom (metrics t) = dom (metrics s))
           (fun _ => True)) with (hs := hs) (s := s); try done.
  - intros h t t' _ Ht Hc. rewrite <- Ht.
    destruct (call_hook_metrics hp h t t' Hc)
      as [->|[(k & b & m & Hm & -> & _)| ->]]; [done| |].
    + apply dom_insert_lookup_L. by eexists.
    + apply dom_fmap_L.
  - by apply Forall_true.
Qed.

Lemma metrics_splits_fixed_witness :
  dom (metrics (on_train_epoch_start (sample_hparams false true)
                  (sample_validated_state false true)))
  = dom (metrics (sample_state false true)).
Proof.
  apply (metrics_splits_fixed (sample_hparams false true)
           [ValidationStep sample_batch 0; OnTrainEpochStart]
           (sample_state false true)).
  by vm_compute.
Defined.

Lemma init_metrics_reset hp (k : string) m :
  metrics (__init__ hp) !! k = Some m → m = reset_metrics.
Proof.
  cbn. intros H.
  repeat (apply lookup_insert_Some in H as [[_ <-]|[_ H]]; [done|]).
  by rewrite lookup_empty in H.
Qed.

Lemma truediv_inv (a : Q) (n : Z) (v : Q) :
  truediv a (inject_Z n) = Ok v → n ≠ 0 ∧ v = (a / inject_Z n)%Q.
Proof.
  unfold truediv. destruct (Qeq_bool (inject_Z n) 0) eqn:E; [done|].
  intros [= <-]. split; [|done]. by intros ->.
Qed.

Lemma on_validation_epoch_end_best_inv hp s s' :
  on_validation_epoch_end hp s = Ok s' →
  ∃ m, metrics s !! "val" = Some m ∧ n_examples m ≠ 0
       ∧ (best_acc s' = best_acc s
          ∨ best_acc s' = (inject_Z (n_correct m) / inject_Z (n_examples m))%Q).
Proof.
  unfold on_validation_epoch_end, scheduler_step, mbind, result_bind.
  destruct (metrics s !! "val") as [m|]; [|done].
  destruct (truediv _ (inject_Z (n_examples m))) as [val_acc|] eqn:Ea; [|done].
  apply truediv_inv in Ea as [He ->].
  destruct (truediv _ _) as [val_loss|]; [|done].
  intros H. exists m. split; [done|]. split; [done|]. revert H.
  destruct (last_layer_only hp);
    [|destruct (current_epoch s <? num_warm_epochs hp)];
    cbn [lr_scheduler emit];
    try (destruct (lr_scheduler s) eqn:El; [|done]);
    cbn [best_acc emit];
    destruct (Qlt_bool (best_acc s) _);
    intros [= <-]; cbn [best_acc emit set_best_acc]; auto.
Qed.

Lemma accuracy_in_unit_interval (a n : Z) :
  0 ≤ a ≤ n → n ≠ 0 → (0 <= inject_Z a / inject_Z n <= 1)%Q.
Proof.
  intros Ha Hn.
  assert (Hpos : (0 < inject_Z n)%Q).
  { change 0%Q with (inject_Z 0). rewrite <- Zlt_Qlt. lia. }
  split.
  - apply Qle_shift_div_l; [done|]. rewrite Qmult_0_l.
    change 0%Q with (inject_Z 0). rewrite <- Zle_Qle. lia.
  - apply Qle_shift_div_r; [done|]. rewrite Qmult_1_l.
    rewrite <- Zle_Qle. lia.
Qed.

(** As long as no batch reports more correct predictions than it has
    targets, the counters of every split satisfy
    [0 <= n_correct <= n_examples] and [0 <= n_batches], and [best_acc]
    is an accuracy between [0] and [1], in every state the trainer can
    reach. *)
Theorem counters_and_best_acc_bounded (adam_default_lr : Q) hp hs s :
  Forall plausible_hook hs →
  run hp hs (trainer_setup adam_default_lr hp) = Ok s →
  (0 <= best_acc s <= 1)%Q
  ∧ ∀ split_key m, metrics s !! split_key = Some m →
      0 ≤ n_correct m ≤ n_examples m ∧ 0 ≤ n_batches m.
Proof.
  intros Hp Hr.
  apply (run_invariant hp
           (fun t => (0 <= best_acc t <= 1)%Q
                     ∧ ∀ k m, metrics t !! k = Some m →
                         0 ≤ n_correct m ≤ n_examples m ∧ 0 ≤ n_batches m)
           plausible_hook)
    with (hs := hs) (s := trainer_setup adam_default_lr hp); try done.
  - intros h t t' Hh [Hb Hm] Hc. split.
    + assert (Hcase : best_acc t' = best_acc t
                ∨ ∃ m, metrics t !! "val" = Some m ∧ n_examples m ≠ 0
                    ∧ best_acc t'
                      = (inject_Z (n_correct m) / inject_Z (n_examples m))%Q).
      { destruct h; cbn in Hc;
          try (apply _step_inv in Hc as (_ & _ & -> & _); by left).
        - injection Hc as <-. rewrite on_train_epoch_start_eq. by left.
        - apply on_validation_epoch_end_best_inv in Hc
            as (m & Hv & He & [->| ->]); [by left|]. right. by exists m.
        - injection Hc as <-. by left.
        - injection Hc as <-. by left. }
      destruct Hcase as [->|(m & Hv & He & ->)]; [done|].
      apply accuracy_in_unit_interval; [|done]. by apply (Hm "val").
    + intros k m Hk.
      destruct (call_hook_metrics hp h t t' Hc)
        as [Heq|[(k0 & b & m0 & Hm0 & Heq & Hpb)|Heq]]; rewrite Heq in Hk.
      * by apply (Hm k).
      * apply lookup_insert_Some in Hk as [[_ <-]|[_ Hk]]; [|by apply (Hm k)].
        destruct (Hm _ _ Hm0) as [Hc0 Hb0]. specialize (Hpb Hh).
        unfold plausible_batch in Hpb. cbn. lia.
      * apply lookup_fmap_Some in Hk as (m1 & <- & _). cbn. lia.
  - split; [cbn; lra|].
    intros k m Hk. apply (init_metrics_reset hp) in Hk as ->. cbn. lia.
Qed.

Lemma counters_and_best_acc_bounded_witness :
  (0 <= best_acc (sample_validated_state false true) <= 1)%Q.
Proof.
  apply (counters_and_best_acc_bounded (1 # 1000) (sample_hparams false true)
           [ValidationStep sample_batch 0] (sample_validated_state false true)).
  - constructor; [|constructor]. cbn. unfold plausible_batch. cbn. lia.
  - by vm_compute.
Defined.

(** With [class_specific = False] the separation cost is never computed:
    in every state the trainer can reach, the [separation_cost] and
    [avg_separation_cost] accumulators of all splits are still the [0] of
    [reset_metrics]. *)
Theorem separation_accumulators_stay_zero (adam_default_lr : Q) hp hs s :
  class_specific hp = false →
  run hp hs (trainer_setup adam_default_lr hp) = Ok s →
  ∀ split_key m, metrics s !! split_key = Some m →
    separation_cost m = 0%Q ∧ avg_separation_cost m = 0%Q.
Proof.
  intros Hcs Hr.
  apply (run_invariant hp
           (fun t => ∀ k m, metrics t !! k = Some m →
                       separation_cost m = 0%Q ∧ avg_separation_cost m = 0%Q)
           (fun _ => True))
    with (hs := hs) (s := trainer_setup adam_default_lr hp); try done.
  - intros h t t' _ Hm Hc k m Hk.
    destruct (call_hook_metrics hp h t t' Hc)
      as [Heq|[(k0 & b & m0 & Hm0 & Heq & _)|Heq]]; rewrite Heq in Hk.
    + by apply (Hm k).
    + apply lookup_insert_Some in Hk as [[_ <-]|[_ Hk]]; [|by apply (Hm k)].
      unfold accumulate; cbn. rewrite Hcs. by apply (Hm k0).
    + by apply lookup_fmap_Some in Hk as (m1 & <- & _).
  - by apply Forall_true.
  - intros k m Hk. by apply (init_metrics_reset hp) in Hk as ->.
Qed.

Lemma separation_accumulators_stay_zero_witness :
  separation_cost
    (accumulate (sample_hparams false false) sample_batch reset_metrics) = 0%Q
  ∧ avg_separation_cost
      (accumulate (sample_hparams false false) sample_batch reset_metrics) = 0%Q.
Proof.
  apply (separation_accumulators_stay_zero (1 # 1000)
           (sample_hparams false false) [ValidationStep sample_batch 0]
           (sample_validated_state false false) eq_refl) with (split_key := "val").
  - by vm_compute.
  - by vm_compute.
Defined.

End RunInvariants.

Section Optimizers.
Import SlidingWindow.

Implicit Types (hp : hparams) (b : batch) (s : state) (m : metrics_dict).
Implicit Types (h : hook) (hs : list hook) (o : optimizer).

Lemma stepped_optimizers_app (cs1 cs2 : list call) :
  stepped_optimizers (cs1 ++ cs2)
  = (stepped_optimizers cs1 ++ stepped_optimizers cs2)%list.
Proof. apply omap_app. Qed.

Lemma _step_calls_inv hp (k : string) b s s' :
  _step hp k b s = Ok s' →
  ∃ new : list call,
    calls s' = (calls s ++ new)%list
    ∧ stepped_optimizers new =
        if bool_decide (k = "train")
        then [select_optimizer hp (current_epoch s)] else [].
Proof.
  unfold _step. destruct (metrics s !! k) as [m|]; [|done].
  case_bool_decide as Hk.
  - cbn [optimizers set_metrics]. destruct (optimizers s) as [opts|]; [|done].
    intros [= <-].
    cbn [calls emit set_optimizers set_metrics current_epoch global_step].
    rewrite <- !app_assoc. eexists. split; [reflexivity|].
    apply stepped_optimizers_train.
  - intros [= <-]. exists []. split; [|done].
    cbn [calls set_metrics]. by rewrite app_nil_r.
Qed.

Lemma on_validation_epoch_end_calls_inv hp s s' :
  on_validation_epoch_end hp s = Ok s' →
  ∃ new : list call,
    calls s' = (calls s ++ new)%list
    ∧ stepped_optimizers new = [] ∧ optimizer_calls new = [].
Proof.
  unfold on_validation_epoch_end, scheduler_step, mbind, result_bind.
  destruct (metrics s !! "val") as [m|]; [|done].
  destruct (truediv _ _) as [val_acc|]; [|done].
  destruct (truediv _ _) as [val_loss|]; [|done].
  destruct (last_layer_only hp);
    [|destruct (current_epoch s <? num_warm_epochs hp)];
    cbn [lr_scheduler emit];
    try (destruct (lr_scheduler s) eqn:El; [|done]);
    cbn [best_acc emit];
    destruct (Qlt_bool (best_acc s) val_acc);
    intros [= <-]; cbn [calls emit set_best_acc];
    rewrite <- ?app_assoc; eexists; (split; [reflexivity|]); done.
Qed.

Lemma stepped_train_epoch_start_calls hp (epoch : Z) :
  stepped_optimizers (train_epoch_start_calls hp epoch) = [].
Proof.
  unfold train_epoch_start_calls, stepped_optimizers.
  destruct (last_layer_only hp); [done|].
  destruct (epoch =? 0), (epoch <? num_warm_epochs hp); try done;
    by destruct (epoch =? num_warm_epochs hp).
Qed.

Lemma call_hook_calls hp h s s' :
  call_hook hp h s = Ok s' →
  ∃ new : list call,
    calls s' = (calls s ++ new)%list
    ∧ length (stepped_optimizers new)
      = if is_training_step h then 1%nat else 0%nat.
Proof.
  intros Hc. destruct h; cbn in Hc.
  - apply _step_calls_inv in Hc as (new & Hn & Hs). exists new.
    split; [done|]. by rewrite Hs.
  - apply _step_calls_inv in Hc as (new & Hn & Hs). exists new.
    split; [done|]. by rewrite Hs.
  - apply _step_calls_inv in Hc as (new & Hn & Hs). exists new.
    split; [done|]. by rewrite Hs.
  - injection Hc as <-. rewrite on_train_epoch_start_eq. eexists.
    split; [reflexivity|]. by rewrite stepped_train_epoch_start_calls.
  - apply on_validation_epoch_end_calls_inv in Hc as (new & Hn & Hs & _).
    exists new. split; [done|]. by rewrite Hs.
  - injection Hc as <-. exists []. split; [|done]. cbn. by rewrite app_nil_r.
  - injection Hc as <-. exists []. split; [|done]. cbn. by rewrite app_nil_r.
Qed.

(** Manual optimisation takes exactly one [optimizer.step()] per training
    batch: over any sequence of hooks the trainer runs, the calls only
    grow, and the number of optimizer steps among the new calls is the
    number of training steps in the sequence (validation and test steps
    and the epoch hooks take none). *)
Theorem one_optimizer_step_per_training_batch hp hs s s' :
  run hp hs s = Ok s' →
  ∃ new : list call,
    calls s' = (calls s ++ new)%list
    ∧ length (stepped_optimizers new) = count_training_steps hs.
Proof.
  revert s. induction hs as [|h hs IH]; intros s Hr; cbn in Hr.
  - injection Hr as <-. exists []. split; [by rewrite app_nil_r|done].
  - destruct (call_hook hp h s) as [s1|] eqn:E; [|done].
    apply call_hook_calls in E as (new1 & Hn1 & Hl1).
    apply IH in Hr as (new2 & Hn2 & Hl2).
    exists (new1 ++ new2)%list. split.
    + by rewrite Hn2, Hn1, app_assoc.
    + rewrite stepped_optimizers_app, length_app, Hl1, Hl2.
      unfold count_training_steps. rewrite filter_cons.
      destruct (is_training_step h) eqn:Eh.
      * by rewrite decide_True.
      * by rewrite decide_False.
Qed.

Lemma one_optimizer_step_per_training_batch_witness :
  ∃ s' (new : list call),
    run (sample_hparams false true)
      [OnTrainEpochStart; TrainingStep sample_batch 0;
       ValidationStep sample_batch 0; TrainingStep sample_batch 1]
      (sample_state false true) = Ok s'
    ∧ calls s' = (calls (sample_state false true) ++ new)%list
    ∧ length (stepped_optimizers new) = 2%nat.
Proof.
  assert (Hr : ∃ s', run (sample_hparams false true)
      [OnTrainEpochStart; TrainingStep sample_batch 0;
       ValidationStep sample_batch 0; TrainingStep sample_batch 1]
      (sample_state false true) = Ok s') by (eexists; by vm_compute).
  destruct Hr as [s' Hr].
  destruct (one_optimizer_step_per_training_batch _ _ _ _ Hr)
    as (new & Hc & Hl).
  exists s', new. split; [exact Hr|]. split; [exact Hc|exact Hl].
Defined.

Lemma get_put_optimizer (which : optim_id) o (opts : optimizer * optimizer) :
  get_optimizer which (put_optimizer which o opts) = o.
Proof. by destruct which. Qed.

Lemma put_get_optimizer (which : optim_id) (opts : optimizer * optimizer) :
  put_optimizer which (get_optimizer which opts) opts = opts.
Proof. by destruct which, opts. Qed.

Lemma self_logged_train hp b (which : optim_id) (l : option Q) :
  self_logged
    ([ZeroGrad which; ManualBackward (step_loss hp b)]
     ++ clip_calls hp
     ++ [OptimizerStep which;
         SelfLog "train_loss_step" (Some (step_loss hp b)); SelfLog "lr" l])%list
  = [("train_loss_step", Some (step_loss hp b)); ("lr", l)].
Proof. unfold clip_calls. by destruct (gradient_clipping hp). Qed.

(** The effect of one training step, spelled out. *)
Lemma training_step_effect hp b (batch_idx : Z) s
    (opts : optimizer * optimizer) :
  is_Some (metrics s !! "train") → optimizers s = Some opts →
  let which := select_optimizer hp (current_epoch s) in
  let g := global_step s in
  let w := warmup_batches hp in
  ∃ s' (opts' : optimizer * optimizer) (new : list call),
    training_step hp b batch_idx s = Ok s'
    ∧ optimizers s' = Some opts'
    ∧ calls s' = (calls s ++ new)%list
    ∧ (which = WarmOptim → opts'.2 = opts.2)
    ∧ (which = MainOptim → opts'.1 = opts.1)
    ∧ (0 < w → g < w →
         Forall (fun pg => lr pg
                   = (lr_scale g w * defaults_lr (get_optimizer which opts))%Q)
           (param_groups (get_optimizer which opts')))
    ∧ (¬ (0 < w ∧ g < w) → opts' = opts)
    ∧ self_logged new
      = [("train_loss_step", Some (step_loss hp b));
         ("lr", get_lr (get_optimizer which opts'))]
    ∧ ManualBackward (step_loss hp b) ∈ new.
Proof.
  intros [m Hm] Ho which g w. unfold training_step.
  rewrite (_step_train hp b s m opts Hm Ho). fold which g w.
  eexists _, _, _. split; [reflexivity|]. split; [reflexivity|].
  split; [reflexivity|]. rewrite get_put_optimizer. split_and!.
  - intros ->. done.
  - intros ->. done.
  - intros Hw Hg. rewrite (update_lr_warmup_active _ _ _ Hw Hg).
    cbn [param_groups]. apply Forall_fmap, Forall_true. done.
  - intros Hn. rewrite (update_lr_warmup_idle _ _ _ Hn).
    apply put_get_optimizer.
  - apply self_logged_train.
  - apply elem_of_cons. right. apply elem_of_cons. by left.
Qed.

(** A training step works on one optimizer of the pair, the warm one in a
    warm-up epoch of a module that is not last-layer-only and the main one
    otherwise: [zero_grad] and [step] are called on it and on it alone.
    The learning rates of the other optimizer are not written.  While
    [global_step < warmup_batches] every param group of the stepped
    optimizer gets the warm-up lr; from then on the module writes no
    learning rate.  The loss logged as ['train_loss_step'] is the loss
    handed to [manual_backward], and the ['lr'] logged is the first param
    group's lr after the warm-up update. *)
Theorem training_step_touches_one_optimizer hp b (batch_idx : Z) s
    (opts : optimizer * optimizer) :
  is_Some (metrics s !! "train") → optimizers s = Some opts →
  let g := global_step s in
  let w := warmup_batches hp in
  let pick := fun (o : optim_id) (p : optimizer * optimizer) =>
    match o with WarmOptim => p.1 | MainOptim => p.2 end in
  ∃ s' (opts' : optimizer * optimizer) (new : list call)
      (which other : optim_id),
    training_step hp b batch_idx s = Ok s'
    ∧ optimizers s' = Some opts'
    ∧ calls s' = (calls s ++ new)%list
    ∧ which ≠ other
    ∧ (which = WarmOptim
       ↔ last_layer_only hp = false ∧ current_epoch s < num_warm_epochs hp)
    ∧ (ZeroGrad which ∈ new ∧ OptimizerStep which ∈ new)
    ∧ ((ZeroGrad other ∉ new) ∧ (OptimizerStep other ∉ new))
    ∧ param_groups (pick other opts') = param_groups (pick other opts)
    ∧ defaults_lr (pick other opts') = defaults_lr (pick other opts)
    ∧ defaults_lr (pick which opts') = defaults_lr (pick which opts)
    ∧ (0 < w → g < w →
         Forall (fun pg =>
                   lr pg = (py_min 1 (inject_Z (g + 1) / inject_Z w)
                            * defaults_lr (pick which opts))%Q)
           (param_groups (pick which opts')))
    ∧ (¬ (0 < w ∧ g < w) →
         param_groups (pick which opts') = param_groups (pick which opts))
    ∧ self_logged new
      = [("train_loss_step", Some (step_loss hp b));
         ("lr", get_lr (pick which opts'))]
    ∧ ManualBackward (step_loss hp b) ∈ new.
Proof.
  intros [m Hm] Ho g w pick. unfold training_step.
  rewrite (_step_train hp b s m opts Hm Ho). fold g w.
  assert (Hwhich : select_optimizer hp (current_epoch s) = WarmOptim
            ↔ last_layer_only hp = false
              ∧ current_epoch s < num_warm_epochs hp).
  { unfold select_optimizer. destruct (last_layer_only hp).
    - split; [done|]. by intros [? _].
    - destruct (Z.ltb_spec (current_epoch s) (num_warm_epochs hp)).
      + split; done.
      + split; [done|]. intros [_ ?]. lia. }
  assert (Hupd : ∀ o : optimizer,
    defaults_lr (update_lr_warmup o g w) = defaults_lr o
    ∧ (0 < w → g < w →
         Forall (fun pg =>
                   lr pg = (py_min 1 (inject_Z (g + 1) / inject_Z w)
                            * defaults_lr o)%Q)
           (param_groups (update_lr_warmup o g w)))
    ∧ (¬ (0 < w ∧ g < w) →
         param_groups (update_lr_warmup o g w) = param_groups o)).
  { intros o. destruct (decide (0 < w ∧ g < w)) as [[Hw Hg]|Hn].
    - rewrite (update_lr_warmup_active _ _ _ Hw Hg).
      cbn [param_groups defaults_lr]. split_and!.
      + done.
      + intros _ _. apply Forall_fmap, Forall_true. done.
      + intros Hn. by destruct Hn.
    - rewrite (update_lr_warmup_idle _ _ _ Hn). split_and!; try done.
      intros Hw Hg. by destruct Hn. }
  assert (Hin : ∀ (o : optim_id) (l1 l2 : option Q) (c : call),
    c ∈ ([ZeroGrad o; ManualBackward (step_loss hp b)] ++ clip_calls hp
         ++ [OptimizerStep o; SelfLog "train_loss_step" l1;
             SelfLog "lr" l2])%list
    → c = ZeroGrad o ∨ c = OptimizerStep o ∨ is_optimizer_call c = false
      ∨ c = ManualBackward (step_loss hp b)
      ∨ ∃ v, c = ClipGradNorm v).
  { intros o l1 l2 c. unfold clip_calls.
    destruct (gradient_clipping hp); cbn;
      rewrite ?elem_of_cons, elem_of_nil;
      intros H; repeat (destruct H as [->|H]); eauto 10; done. }
  destruct (select_optimizer hp (current_epoch s)) eqn:Esel.
  - eexists _, _, _, WarmOptim, MainOptim.
    split; [reflexivity|]. split; [reflexivity|]. split; [reflexivity|].
    cbn [put_optimizer get_optimizer pick fst snd].
    destruct (Hupd opts.1) as (H1 & H2 & H3).
    split_and!; try done.
    + apply elem_of_cons. by left.
    + rewrite !elem_of_app. right. right. apply elem_of_cons. by left.
    + intros H. apply Hin in H as [?|[?|[?|[?|[v ?]]]]]; done.
    + intros H. apply Hin in H as [?|[?|[?|[?|[v ?]]]]]; done.
    + apply self_logged_train.
    + apply elem_of_cons. right. apply elem_of_cons. by left.
  - eexists _, _, _, MainOptim, WarmOptim.
    split; [reflexivity|]. split; [reflexivity|]. split; [reflexivity|].
    cbn [put_optimizer get_optimizer pick fst snd].
    destruct (Hupd opts.2) as (H1 & H2 & H3).
    split_and!; try done.
    + apply elem_of_cons. by left.
    + rewrite !elem_of_app. right. right. apply elem_of_cons. by left.
    + intros H. apply Hin in H as [?|[?|[?|[?|[v ?]]]]]; done.
    + intros H. apply Hin in H as [?|[?|[?|[?|[v ?]]]]]; done.
    + apply self_logged_train.
    + apply elem_of_cons. right. apply elem_of_cons. by left.
Qed.

Lemma training_step_touches_one_optimizer_witness :
  ∃ s' (opts' : optimizer * optimizer),
    training_step (sample_hparams false true) sample_batch 0
      (sample_state false true) = Ok s'
    ∧ optimizers s' = Some opts'.
Proof.
  destruct (training_step_touches_one_optimizer (sample_hparams false true)
              sample_batch 0 (sample_state false true)
              (Adam (1 # 1000) (warm_optimizer_specs (sample_hparams false true)),
               Adam (1 # 1000) (main_optimizer_specs (sample_hparams false true))))
    as (s' & opts' & new & which & other & Hs & Ho & _).
  - eexists. by vm_compute.
  - reflexivity.
  - exists s', opts'. split; [exact Hs|exact Ho].
Defined.

(** The lr warm-up overrides the configured learning rates: a training
    step the trainer takes while [global_step < warmup_batches] leaves
    every param group of the stepped optimizer, whatever lr
    [configure_optimizers] gave it, at
    [min(1, (global_step + 1) / warmup_batches)] times the default lr of
    [Adam], and that is the ['lr'] it logs. *)
Theorem warmup_overrides_configured_lr (adam_default_lr : Q) hp b
    (batch_idx epoch step : Z) :
  0 < warmup_batches hp → step < warmup_batches hp →
  let s := set_trainer epoch step (trainer_setup adam_default_lr hp) in
  let which := select_optimizer hp epoch in
  let warmup_lr := (lr_scale step (warmup_batches hp) * adam_default_lr)%Q in
  ∃ s' (opts' : optimizer * optimizer) (new : list call),
    training_step hp b batch_idx s = Ok s'
    ∧ optimizers s' = Some opts'
    ∧ calls s' = (calls s ++ new)%list
    ∧ Forall (fun pg => lr pg = warmup_lr)
        (param_groups (get_optimizer which opts'))
    ∧ ("lr", Some warmup_lr) ∈ self_logged new.
Proof.
  intros Hw Hstep s which warmup_lr.
  destruct (training_step_effect hp b batch_idx s
              (Adam adam_default_lr (warm_optimizer_specs hp),
               Adam adam_default_lr (main_optimizer_specs hp)))
    as (s' & opts' & new & Hs & Ho & Hc & _ & _ & Hlr & _ & Hlog & _).
  { eexists. by vm_compute. }
  { reflexivity. }
  exists s', opts', new. split; [exact Hs|]. split; [exact Ho|].
  split; [exact Hc|].
  specialize (Hlr Hw Hstep).
  assert (Hd : defaults_lr
                 (get_optimizer (select_optimizer hp (current_epoch s))
                    (Adam adam_default_lr (warm_optimizer_specs hp),
                     Adam adam_default_lr (main_optimizer_specs hp)))
               = adam_default_lr).
  { by destruct (select_optimizer hp (current_epoch s)). }
  rewrite Hd in Hlr. split; [exact Hlr|].
  rewrite Hlog. apply elem_of_cons. right. apply elem_of_cons. left.
  f_equal. cbn [current_epoch global_step s set_trainer] in *.
  fold which in Hlr, Hs |- *.
  assert (Hne : ∃ pg rest,
            param_groups (get_optimizer which opts') = pg :: rest).
  { assert (Hlen : length (param_groups (get_optimizer which opts')) ≠ 0%nat).
    { unfold training_step in Hs.
      rewrite (_step_train hp b s reset_metrics
                 (Adam adam_default_lr (warm_optimizer_specs hp),
                  Adam adam_default_lr (main_optimizer_specs hp)))
        in Hs by (by vm_compute || reflexivity).
      injection Hs as <-. cbn [optimizers] in Ho. injection Ho as <-.
      rewrite get_put_optimizer.
      cbn [current_epoch global_step s set_trainer].
      rewrite (update_lr_warmup_active _ _ _ Hw Hstep).
      cbn [param_groups]. rewrite length_fmap.
      unfold which, select_optimizer, main_optimizer_specs.
      destruct (last_layer_only hp); [done|].
      by destruct (epoch <? num_warm_epochs hp). }
    destruct (param_groups (get_optimizer which opts')) as [|pg rest];
      [done|by eexists _, _]. }
  destruct Hne as (pg & rest & Hpg). unfold get_lr. rewrite Hpg.
  rewrite Hpg in Hlr. apply Forall_cons in Hlr as [-> _]. done.
Qed.

Lemma warmup_overrides_configured_lr_witness :
  ∃ s' (opts' : optimizer * optimizer),
    training_step (sample_hparams false true) sample_batch 0
      (set_trainer 0 4 (sample_state false true)) = Ok s'
    ∧ optimizers s' = Some opts'
    ∧ Forall (fun pg => lr pg
                = (lr_scale 4 10 * (1 # 1000))%Q)
        (param_groups opts'.1).
Proof.
  destruct (warmup_overrides_configured_lr (1 # 1000)
              (sample_hparams false true) sample_batch 0 0 4)
    as (s' & opts' & new & Hs & Ho & _ & Hlr & _).
  - by vm_compute.
  - by vm_compute.
  - exists s', opts'. split; [exact Hs|]. split; [exact Ho|exact Hlr].
Defined.

(** Repeating the warm-up update for the same step changes nothing more,
    and the update of the last warm-up step
    ([current_step = warmup_batches - 1]) brings every param group to the
    optimizer's default lr. *)
Theorem update_lr_warmup_idempotent_and_final o (current_step warmup_batches : Z) :
  update_lr_warmup (update_lr_warmup o current_step warmup_batches)
      current_step warmup_batches
    = update_lr_warmup o current_step warmup_batches
  ∧ (0 < warmup_batches →
       Forall (fun pg => (lr pg == defaults_lr o)%Q)
         (param_groups (update_lr_warmup o (warmup_batches - 1) warmup_batches))).
Proof.
  split.
  - unfold update_lr_warmup.
    destruct (0 <? warmup_batches) eqn:Ew; [|done].
    destruct (current_step <? warmup_batches) eqn:Ec; [|done].
    cbn [param_groups defaults_lr]. f_equal.
    rewrite <- list_fmap_compose. by apply list_fmap_ext.
  - intros Hw. rewrite update_lr_warmup_active by lia.
    cbn [param_groups]. apply Forall_fmap, Forall_true. intros pg.
    cbn [lr set_lr compose]. unfold lr_scale.
    replace (warmup_batches - 1 + 1) with warmup_batches by lia.
    assert (Hone : (inject_Z warmup_batches / inject_Z warmup_batches == 1)%Q).
    { apply Qmult_inv_r. intros H. unfold Qeq in H. simpl in H. lia. }
    unfold py_min.
    destruct (Qle_bool 1 _) eqn:E; [ring|]. rewrite Hone. ring.
Qed.

Lemma update_lr_warmup_idempotent_and_final_witness :
  Forall (fun pg => (lr pg == 1 # 1000)%Q)
    (param_groups
       (update_lr_warmup
          (Adam (1 # 1000) (main_optimizer_specs (sample_hparams false true)))
          (10 - 1) 10)).
Proof.
  apply (update_lr_warmup_idempotent_and_final
           (Adam (1 # 1000) (main_optimizer_specs (sample_hparams false true)))
           0 10).
  by vm_compute.
Defined.

End Optimizers.

Section EpochHooks.
Import SlidingWindow.

Implicit Types (hp : hparams) (b : batch) (s : state) (m : metrics_dict).

(** What [configure_optimizers] builds.  It attaches the plateau
    scheduler to the main optimizer and writes nothing else of the module.
    Both optimizers carry [Adam]'s default lr as [defaults['lr']].  No
    optimizer decays the prototype vectors or the last layer, and every
    other group has a weight decay.  The backbone [features] is trained by
    the main optimizer of the joint phase only, the last layer by the main
    optimizer of the last-layer phase only, and the warm optimizer trains
    neither. *)
Theorem configure_optimizers_groups (adam_default_lr : Q) hp s :
  let s' := (configure_optimizers adam_default_lr hp s).1 in
  let warm := (configure_optimizers adam_default_lr hp s).2.1 in
  let main := (configure_optimizers adam_default_lr hp s).2.2 in
  (lr_scheduler s' = Some (ReduceLROnPlateau MainOptim)
   ∧ metrics s' = metrics s ∧ best_acc s' = best_acc s
   ∧ optimizers s' = optimizers s ∧ calls s' = calls s)
  ∧ (defaults_lr warm = adam_default_lr ∧ defaults_lr main = adam_default_lr)
  ∧ Forall (fun pg => weight_decay pg = None
                      ↔ params pg = "prototype_vectors"
                        ∨ params pg = "last_layer")
      (param_groups warm ++ param_groups main)%list
  ∧ ("features" ∈ (params <$> param_groups main)
     ↔ last_layer_only hp = false)
  ∧ ("last_layer" ∈ (params <$> param_groups main)
     ↔ last_layer_only hp = true)
  ∧ ("features" ∉ (params <$> param_groups warm))
  ∧ ("last_layer" ∉ (params <$> param_groups warm)).
Proof.
  cbn. unfold main_optimizer_specs. split; [done|]. split; [done|].
  destruct (last_layer_only hp); cbn.
  - split_and!.
    + repeat (apply List.Forall_cons); try apply List.Forall_nil; cbn;
        (split; [intros H; (discriminate H || auto)
                |intros [H|H]; (discriminate H || auto)]).
    + split; [|done]. rewrite !elem_of_cons, elem_of_nil.
      intuition discriminate.
    + split; [done|]. intros _. apply elem_of_cons. by left.
    + rewrite !elem_of_cons, elem_of_nil. intuition discriminate.
    + rewrite !elem_of_cons, elem_of_nil. intuition discriminate.
  - split_and!.
    + repeat (apply List.Forall_cons); try apply List.Forall_nil; cbn;
        (split; [intros H; (discriminate H || auto)
                |intros [H|H]; (discriminate H || auto)]).
    + split; [done|]. intros _. apply elem_of_cons. by left.
    + split; [|done]. rewrite !elem_of_cons, elem_of_nil.
      intuition discriminate.
    + rewrite !elem_of_cons, elem_of_nil. intuition discriminate.
    + rewrite !elem_of_cons, elem_of_nil. intuition discriminate.
Qed.

(** The warm-up messages of [on_train_epoch_start]: ['WARM-UP START.'] is
    logged exactly in epoch [0] and ['WARM-UP END.'] exactly in epoch
    [num_warm_epochs], both only when [last_layer_only] is off.  With
    [num_warm_epochs <= 0] there is no warm-up phase: [warm_only] is not
    called in any epoch from [0] on. *)
Theorem warm_up_log_messages hp s :
  ∃ new : list call,
    calls (on_train_epoch_start hp s) = (calls s ++ new)%list
    ∧ (WarmUpStart ∈ log_msgs new
       ↔ last_layer_only hp = false ∧ current_epoch s = 0)
    ∧ (WarmUpEnd ∈ log_msgs new
       ↔ last_layer_only hp = false ∧ current_epoch s = num_warm_epochs hp)
    ∧ (num_warm_epochs hp ≤ 0 → 0 ≤ current_epoch s → WarmOnly ∉ new).
Proof.
  exists (train_epoch_start_calls hp (current_epoch s)).
  rewrite on_train_epoch_start_eq. cbn [calls]. split; [done|].
  unfold train_epoch_start_calls, log_msgs.
  destruct (last_layer_only hp).
  - cbn. rewrite !elem_of_nil, !elem_of_cons, elem_of_nil.
    intuition (discriminate || auto).
  - destruct (Z.eqb_spec (current_epoch s) 0) as [E0|E0],
      (Z.ltb_spec (current_epoch s) (num_warm_epochs hp)) as [El|El],
      (Z.eqb_spec (current_epoch s) (num_warm_epochs hp)) as [Ew|Ew];
      cbn; rewrite ?elem_of_cons, ?elem_of_nil;
      intuition (discriminate || lia || auto).
Qed.

Lemma warm_up_log_messages_witness :
  ∃ new : list call,
    calls (on_train_epoch_start (sample_hparams false true)
             (sample_state false true))
      = (calls (sample_state false true) ++ new)%list
    ∧ WarmUpStart ∈ log_msgs new.
Proof.
  destruct (warm_up_log_messages (sample_hparams false true)
              (sample_state false true)) as (new & Hc & Hstart & _).
  exists new. split; [exact Hc|]. apply Hstart. by vm_compute.
Defined.

(** [_epoch_end] on a split that has seen batches logs, in this order, the
    five accumulated loss terms divided by [n_batches], the accuracy
    [n_correct / n_examples], the L1 norm and the prototype distance,
    under the names ['<split>/<key>'], ['l1'] and ['p dist pair']; it
    calls nothing else and changes no attribute of the module.  On a
    split the module does not have it raises [KeyError]. *)
Theorem _epoch_end_logs (split_key : string) (l1 p_avg_pair_dist : Q) s m :
  metrics s !! split_key = Some m → n_batches m ≠ 0 → n_examples m ≠ 0 →
  let n := inject_Z (n_batches m) in
  ∃ s' (new : list call),
    _epoch_end split_key l1 p_avg_pair_dist s = Ok s'
    ∧ calls s' = (calls s ++ new)%list
    ∧ new = (fun p => SelfLog p.1 p.2) <$> self_logged new
    ∧ self_logged new
      = [(split_key +:+ "/loss", Some (loss m / n)%Q);
         (split_key +:+ "/cross_entropy", Some (cross_entropy m / n)%Q);
         (split_key +:+ "/cluster_cost", Some (cluster_cost m / n)%Q);
         (split_key +:+ "/separation_cost", Some (separation_cost m / n)%Q);
         (split_key +:+ "/avg_separation_cost",
          Some (avg_separation_cost m / n)%Q);
         (split_key +:+ "/accuracy",
          Some (inject_Z (n_correct m) / inject_Z (n_examples m))%Q);
         ("l1", Some l1);
         ("p dist pair", Some p_avg_pair_dist)]
    ∧ metrics s' = metrics s ∧ best_acc s' = best_acc s
    ∧ optimizers s' = optimizers s ∧ lr_scheduler s' = lr_scheduler s
    ∧ ∀ t other, metrics t !! other = None →
        _epoch_end other l1 p_avg_pair_dist t = Raise (KeyError other).
Proof.
  intros Hm Hb He n. unfold _epoch_end. rewrite Hm.
  cbn [log_means epoch_end_keys]. unfold mbind, result_bind.
  repeat (rewrite (truediv_ok _ _ Hb); cbn [log_means]).
  rewrite (truediv_ok _ _ He).
  eexists _, _. split; [reflexivity|].
  cbn [calls emit metrics best_acc optimizers lr_scheduler].
  rewrite <- !app_assoc. split; [reflexivity|].
  split_and!; try done.
  intros t other Ht. by rewrite Ht.
Qed.

Lemma _epoch_end_logs_witness :
  ∃ s' (new : list call),
    _epoch_end "val" 5 2 (sample_validated_state false true) = Ok s'
    ∧ calls s' = (calls (sample_validated_state false true) ++ new)%list
    ∧ length (self_logged new) = 8%nat.
Proof.
  destruct (_epoch_end_logs "val" 5 2 (sample_validated_state false true)
              (accumulate (sample_hparams false true) sample_batch reset_metrics))
    as (s' & new & Hs & Hc & _ & Hl & _).
  - by vm_compute.
  - by vm_compute.
  - by vm_compute.
  - exists s', new. split; [exact Hs|]. split; [exact Hc|]. by rewrite Hl.
Defined.

End EpochHooks.
